(** * Presence registry and message router of the chat relay (index.js)

    A shallow embedding of the Socket.IO handlers of [index.js]: the
    [onlineUsers] map, the helper [findUserByUsername], every
    [socket.on(...)] handler and the periodic stale-connection sweep,
    followed by the properties of the registry and of the routing. *)

From Stdlib Require Import String Ascii List ZArith Bool Lia.
Import ListNotations.
Local Open Scope Z_scope.
Local Open Scope string_scope.

(** ** JavaScript strings

    A string is a sequence of code units; the model keeps the code units
    U+0000 to U+00FF, one [ascii] each.  [String.prototype.trim] strips
    white space and line terminators from both ends: below U+0100 these
    are TAB, LF, VT, FF, CR, SP and NBSP. *)

Module JsString.

Definition isWhiteSpace (c : ascii) : bool :=
  match nat_of_ascii c with
  | 9%nat | 10%nat | 11%nat | 12%nat | 13%nat | 32%nat | 160%nat => true
  | _ => false
  end.

Fixpoint trimStart (s : string) : string :=
  match s with
  | EmptyString => EmptyString
  | String c r => if isWhiteSpace c then trimStart r else s
  end.

Fixpoint trimEnd (s : string) : string :=
  match s with
  | EmptyString => EmptyString
  | String c r =>
      match trimEnd r with
      | EmptyString => if isWhiteSpace c then EmptyString else String c EmptyString
      | r' => String c r'
      end
  end.

Definition trim (s : string) : string := trimEnd (trimStart s).

(** The character U+0022, for template literals that quote a name. *)
Definition dquote : string := String (ascii_of_nat 34) EmptyString.

(** A value read from a payload field that is a string when present:
    [None] is [undefined].  [!v] holds for [undefined] and for the empty
    string. *)
Definition falsy (v : option string) : bool :=
  match v with
  | None => true
  | Some s => s =? EmptyString
  end.

End JsString.
Import JsString.

(** ** The [Map] of the runtime

    A [Map] keeps its entries in insertion order; [set] on a present key
    replaces the value where it stands, on an absent key appends;
    [delete] removes the entry of the key.  Keys of a [Map] are unique,
    which is the invariant [JsMap.ok]. *)

Module JsMap.
Section Ops.
Context {V : Type}.

Definition t : Type := list (string * V).

Definition empty : t := [].

Fixpoint get (m : t) (k : string) : option V :=
  match m with
  | [] => None
  | (k', v) :: r => if k' =? k then Some v else get r k
  end.

Fixpoint set (m : t) (k : string) (v : V) : t :=
  match m with
  | [] => [(k, v)]
  | (k', v') :: r => if k' =? k then (k, v) :: r else (k', v') :: set r k v
  end.

Fixpoint delete (m : t) (k : string) : t :=
  match m with
  | [] => []
  | (k', v') :: r => if k' =? k then r else (k', v') :: delete r k
  end.

Definition keys (m : t) : list string := map fst m.
Definition values (m : t) : list V := map snd m.
Definition size (m : t) : nat := length m.

Definition ok (m : t) : Prop := NoDup (keys m).
End Ops.
Arguments t : clear implicits.
End JsMap.

(** ** Data model *)

(** The record stored per socket: [{ username, socketId, joinTime }];
    [joinTime] is the [Date] of the join, kept as its millisecond value. *)
Record User : Type := mkUser {
  username : string;
  socketId : string;
  joinTime : Z
}.

Definition Buffer : Type := list Byte.byte.

(** Events a client sends, with the fields each handler destructures.
    [get_user_info] carries the acknowledgement of the emit; [callback]
    tells whether it is a function. *)
Inductive Inbound : Type :=
| user_join (username : option string)
| media_upload (buffer : Buffer) (targetUser : option string)
               (mediaType filename : string)
| image_upload (buffer : Buffer) (id : string)
| typing_start (targetUser : option string)
| typing_stop (targetUser : option string)
| send_message (targetUser message : option string)
| get_user_info (callback : bool)
| disconnect
| ping.

(** Events the server emits. *)
Inductive Outbound : Type :=
| error (message : string)
| user_joined (username socketId : string)
| online_users (users : list User)
| join_success (username : string) (onlineUsers : list User)
| get_media (buffer : Buffer) (mediaType filename from : string) (timestamp : Z)
| media_sent (to filename mediaType : string) (size : nat)
| get_image (buffer : Buffer)
| user_typing (username : string) (isTyping : bool)
| receive_message (from message : string) (timestamp : Z)
| message_sent (to message : string) (timestamp : Z)
| user_info (user : option User) (onlineUsers : list User)
| user_left (username socketId : string)
| pong.

(** Where an emit goes: [socket.emit] (and the acknowledgement callback)
    reaches the socket itself, [io.to(id).emit] the room [id],
    [socket.broadcast.emit] every socket but the emitting one, [io.emit]
    every socket. *)
Inductive Target : Type :=
| ToSocket (sid : string)
| ToRoom (room : string)
| ToOthers (sid : string)
| ToAll.

Definition Emission : Type := (Target * Outbound)%type.

(** No handler calls [socket.join], so the room [id] holds exactly the
    socket whose id is [id]. *)
Definition reaches (t : Target) (c : string) : bool :=
  match t with
  | ToSocket sid => sid =? c
  | ToRoom room => room =? c
  | ToOthers sid => negb (sid =? c)
  | ToAll => true
  end.

(** The events a connected socket [c] receives out of a list of emits. *)
Definition received (c : string) (es : list Emission) : list Outbound :=
  map snd (filter (fun e => reaches (fst e) c) es).

Definition isError (o : Outbound) : bool :=
  match o with error _ => true | _ => false end.

(** ** Handlers as state transformers

    A handler reads the system clock and the transport's socket table and
    updates [onlineUsers]; what it emits is appended to [emitted]. *)

Record Env : Type := mkEnv {
  (** the n-th reading of the clock ([new Date()], [Date.now()]) *)
  clock : nat -> Z;
  (** [io.sockets.sockets.get(id)]: [None] for an unknown id, otherwise
      the socket's [connected] flag *)
  sockets : string -> option bool
}.

Record World : Type := mkWorld {
  onlineUsers : JsMap.t User;
  emitted : list Emission;
  clockReads : nat
}.

Definition Handler (A : Type) : Type := Env -> World -> A * World.

Definition ret {A} (a : A) : Handler A := fun _ w => (a, w).

Definition bind {A B} (h : Handler A) (k : A -> Handler B) : Handler B :=
  fun e w => let (a, w') := h e w in k a e w'.

Notation "x <- h ;; k" := (bind h (fun x => k))
  (at level 61, h at next level, right associativity).
Notation "h ;;; k" := (bind h (fun _ => k))
  (at level 61, right associativity).

Definition readUsers : Handler (JsMap.t User) :=
  fun _ w => (onlineUsers w, w).

Definition writeUsers (m : JsMap.t User) : Handler unit :=
  fun _ w => (tt, mkWorld m (emitted w) (clockReads w)).

Definition emit (t : Target) (o : Outbound) : Handler unit :=
  fun _ w => (tt, mkWorld (onlineUsers w) (emitted w ++ [(t, o)])%list (clockReads w)).

Definition newDate : Handler Z :=
  fun e w => (clock e (clockReads w),
              mkWorld (onlineUsers w) (emitted w) (S (clockReads w))).

Definition socketAlive (sid : string) : Handler bool :=
  fun e w => (match sockets e sid with Some c => c | None => false end, w).

(** ** Helpers of index.js *)

Definition getOnlineUsersList : Handler (list User) :=
  m <- readUsers ;; ret (JsMap.values m).

Definition broadcastOnlineUsers : Handler unit :=
  l <- getOnlineUsersList ;; emit ToAll (online_users l).

(** The first user, in insertion order, whose name is [name]. *)
Fixpoint findIn (m : JsMap.t User) (name : string) : option User :=
  match m with
  | [] => None
  | (_, user) :: r => if username user =? name then Some user else findIn r name
  end.

Definition findUserByUsername (name : string) : Handler (option User) :=
  m <- readUsers ;; ret (findIn m name).

(** ** The handlers of [io.on('connection', socket => ...)]

    [sid] is [socket.id] of the connection whose handler runs.  A
    [return] inside a handler is the end of the corresponding branch. *)

Definition on_user_join (sid : string) (name : option string) : Handler unit :=
  match name with
  | None => emit (ToSocket sid) (error "Username is required")
  | Some raw =>
      if falsy name || (trim raw =? EmptyString) then
        emit (ToSocket sid) (error "Username is required")
      else
        existingUser <- findUserByUsername raw ;;
        match existingUser with
        | Some _ => emit (ToSocket sid) (error "Username is already taken")
        | None =>
            now <- newDate ;;
            m <- readUsers ;;
            writeUsers (JsMap.set m sid (mkUser (trim raw) sid now)) ;;;
            emit (ToOthers sid) (user_joined (trim raw) sid) ;;;
            broadcastOnlineUsers ;;;
            l <- getOnlineUsersList ;;
            emit (ToSocket sid) (join_success (trim raw) l)
        end
  end.

Definition on_media_upload (sid : string) (buffer : Buffer)
    (targetUser : option string) (mediaType filename : string) : Handler unit :=
  m <- readUsers ;;
  match JsMap.get m sid with
  | None => emit (ToSocket sid) (error "Please join with a username first")
  | Some sender =>
      match targetUser with
      | None => emit (ToSocket sid) (error "Target user is required")
      | Some target =>
          if falsy targetUser || (trim target =? EmptyString) then
            emit (ToSocket sid) (error "Target user is required")
          else
            targetUserObj <- findUserByUsername (trim target) ;;
            match targetUserObj with
            | None =>
                emit (ToSocket sid)
                     (error ("User " ++ dquote ++ target ++ dquote ++ " is not online"))
            | Some t =>
                now <- newDate ;;
                emit (ToRoom (socketId t))
                     (get_media buffer mediaType filename (username sender) now) ;;;
                emit (ToSocket sid)
                     (media_sent target filename mediaType (List.length buffer))
            end
      end
  end.

Definition on_image_upload (sid : string) (buffer : Buffer) (id : string)
    : Handler unit :=
  byName <- findUserByUsername id ;;
  m <- readUsers ;;
  match (match byName with Some u => Some u | None => JsMap.get m id end) with
  | Some targetUser => emit (ToRoom (socketId targetUser)) (get_image buffer)
  | None => emit (ToRoom id) (get_image buffer)
  end.

(** [typing_start] and [typing_stop] differ in the flag only. *)
Definition on_typing (isTyping : bool) (sid : string)
    (targetUser : option string) : Handler unit :=
  m <- readUsers ;;
  match JsMap.get m sid, targetUser with
  | Some sender, Some target =>
      if falsy targetUser then ret tt
      else
        found <- findUserByUsername target ;;
        match found with
        | Some t => emit (ToRoom (socketId t))
                         (user_typing (username sender) isTyping)
        | None => ret tt
        end
  | _, _ => ret tt
  end.

Definition on_send_message (sid : string) (targetUser message : option string)
    : Handler unit :=
  m <- readUsers ;;
  match JsMap.get m sid with
  | None => emit (ToSocket sid) (error "Please join with a username first")
  | Some sender =>
      match targetUser, message with
      | Some target, Some msg =>
          if falsy targetUser || falsy message then
            emit (ToSocket sid) (error "Target user and message are required")
          else
            targetUserObj <- findUserByUsername (trim target) ;;
            match targetUserObj with
            | None =>
                emit (ToSocket sid)
                     (error ("User " ++ dquote ++ target ++ dquote ++ " is not online"))
            | Some t =>
                t1 <- newDate ;;
                emit (ToRoom (socketId t))
                     (receive_message (username sender) (trim msg) t1) ;;;
                t2 <- newDate ;;
                emit (ToSocket sid) (message_sent target (trim msg) t2)
            end
      | _, _ => emit (ToSocket sid) (error "Target user and message are required")
      end
  end.

Definition on_get_user_info (sid : string) (callback : bool) : Handler unit :=
  m <- readUsers ;;
  if callback then
    l <- getOnlineUsersList ;;
    emit (ToSocket sid) (user_info (JsMap.get m sid) l)
  else ret tt.

Definition on_disconnect (sid : string) : Handler unit :=
  m <- readUsers ;;
  match JsMap.get m sid with
  | Some user =>
      writeUsers (JsMap.delete m sid) ;;;
      emit (ToOthers sid) (user_left (username user) sid) ;;;
      broadcastOnlineUsers
  | None => ret tt
  end.

Definition on_ping (sid : string) : Handler unit :=
  emit (ToSocket sid) pong.

Definition handle (sid : string) (ev : Inbound) : Handler unit :=
  match ev with
  | user_join name => on_user_join sid name
  | media_upload buffer targetUser mediaType filename =>
      on_media_upload sid buffer targetUser mediaType filename
  | image_upload buffer id => on_image_upload sid buffer id
  | typing_start targetUser => on_typing true sid targetUser
  | typing_stop targetUser => on_typing false sid targetUser
  | send_message targetUser message => on_send_message sid targetUser message
  | get_user_info callback => on_get_user_info sid callback
  | disconnect => on_disconnect sid
  | ping => on_ping sid
  end.

(** ** The periodic sweep of [setInterval]

    [for (const [socketId, user] of onlineUsers)] walks the live map; the
    body deletes no entry but the one it stands on, so the walk visits
    exactly the entries present when the loop starts, in order. *)

Definition staleThreshold : Z := 5 * 60 * 1000.

Definition sweepEntry (now : Z) (entry : string * User) : Handler unit :=
  let (sid, user) := entry in
  if now - joinTime user >? staleThreshold then
    alive <- socketAlive sid ;;
    if negb alive then
      m <- readUsers ;;
      writeUsers (JsMap.delete m sid) ;;;
      broadcastOnlineUsers
    else ret tt
  else ret tt.

Fixpoint sweepLoop (now : Z) (entries : list (string * User)) : Handler unit :=
  match entries with
  | [] => ret tt
  | entry :: rest => sweepEntry now entry ;;; sweepLoop now rest
  end.

Definition sweep : Handler unit :=
  now <- newDate ;;
  m <- readUsers ;;
  sweepLoop now m.

(** ** Running the server *)

(** One callback of the event loop: an event on a socket, or a tick of
    the sweep timer. *)
Inductive Callback : Type :=
| OnEvent (sid : string) (ev : Inbound)
| OnTimer.

Definition callback (cb : Callback) : Handler unit :=
  match cb with
  | OnEvent sid ev => handle sid ev
  | OnTimer => sweep
  end.

(** The registry and the emits a handler leaves, started on registry [m]
    with nothing emitted yet. *)
Definition run (h : Handler unit) (env : Env) (m : JsMap.t User)
    : JsMap.t User * list Emission :=
  let w := snd (h env (mkWorld m [] 0)) in (onlineUsers w, emitted w).

Definition usersAfter (h : Handler unit) env m := fst (run h env m).
Definition emits (h : Handler unit) env m := snd (run h env m).

(** The registries the server can be in: [onlineUsers] starts empty and
    changes by callbacks only. *)
Inductive reachable : JsMap.t User -> Prop :=
| reach_start : reachable JsMap.empty
| reach_callback env m cb :
    reachable m -> reachable (usersAfter (callback cb) env m).

(** A run of callbacks from the left, each with its own environment. *)
Fixpoint runAll (cbs : list (Env * Callback)) (m : JsMap.t User) : JsMap.t User :=
  match cbs with
  | [] => m
  | (env, cb) :: rest => runAll rest (usersAfter (callback cb) env m)
  end.

(** ** Predicates the properties are stated with *)

(** What holds of every entry the server stores: the record carries the
    key as its [socketId], and its name is a non-empty trimmed string. *)
Definition entryOk (e : string * User) : Prop :=
  socketId (snd e) = fst e /\
  trim (username (snd e)) = username (snd e) /\
  username (snd e) <> EmptyString.

Definition registryOk (m : JsMap.t User) : Prop :=
  JsMap.ok m /\ Forall entryOk m.

(** No two sessions of the registry carry the same display name. *)
Definition uniqueNames (m : JsMap.t User) : Prop :=
  NoDup (map username (JsMap.values m)).

Definition notJoined : Outbound := error "Please join with a username first".
Definition emptyName : Outbound := error "Username is required".
Definition duplicateName : Outbound := error "Username is already taken".
Definition missingField : Outbound := error "Target user and message are required".
Definition recipientNotFound (target : string) : Outbound :=
  error ("User " ++ dquote ++ target ++ dquote ++ " is not online").

(** The four routing events, and those of them that answer an
    unregistered sender with an error. *)
Definition isRouting (ev : Inbound) : bool :=
  match ev with
  | media_upload _ _ _ _ | image_upload _ _ | typing_start _ | typing_stop _
  | send_message _ _ => true
  | _ => false
  end.

Definition isLegacy (ev : Inbound) : bool :=
  match ev with image_upload _ _ => true | _ => false end.

Definition reportsNotJoined (ev : Inbound) : bool :=
  match ev with
  | media_upload _ _ _ _ | send_message _ _ => true
  | _ => false
  end.

(** A routing event of socket [sid] reaches no socket other than [sid]. *)
Definition reachesSenderOnly (sid : string) (es : list Emission) : Prop :=
  forall c, c <> sid -> received c es = [].

(** Callbacks that may write the entry of [sid]: a join on that socket;
    and those that may remove it: its disconnect and the sweep. *)
Definition isJoinOf (sid : string) (cb : Callback) : bool :=
  match cb with
  | OnEvent s (user_join _) => s =? sid
  | _ => false
  end.

Definition mayRemove (sid : string) (cb : Callback) : bool :=
  match cb with
  | OnEvent s disconnect => s =? sid
  | OnTimer => true
  | _ => false
  end.

(** The connection id a legacy media event is addressed to, in the three
    tiers of the specification: the session named [id], else the session
    of connection [id], else [id] itself. *)
Definition legacyAddressee (m : JsMap.t User) (id : string) : string :=
  match findIn m id with
  | Some byName => socketId byName
  | None =>
      match JsMap.get m id with
      | Some byConnection => socketId byConnection
      | None => id
      end
  end.

(** The sweep removes an entry when its join is more than the threshold
    before [now] and the transport has no connected socket for its key. *)
Definition connectedNow (env : Env) (sid : string) : bool :=
  match sockets env sid with Some c => c | None => false end.

Definition pastThreshold (now : Z) (u : User) : bool :=
  now - joinTime u >? staleThreshold.

Definition reaped (env : Env) (now : Z) (e : string * User) : bool :=
  pastThreshold now (snd e) && negb (connectedNow env (fst e)).

Definition isPresenceBroadcast (e : Emission) : bool :=
  match e with
  | (ToAll, online_users _) => true
  | _ => false
  end.

Definition isUserLeft (o : Outbound) : bool :=
  match o with user_left _ _ => true | _ => false end.

(** The presence broadcasts of one sweep: while the loop stands on an
    entry, [kept] are the entries before it that stayed and [todo] the
    entries from it on; a reaped entry is followed by one snapshot of
    the registry without it. *)
Fixpoint sweepBroadcasts (env : Env) (now : Z) (kept todo : JsMap.t User)
    : list Emission :=
  match todo with
  | [] => []
  | e :: rest =>
      if reaped env now e then
        (ToAll, online_users (JsMap.values (kept ++ rest)%list))
          :: sweepBroadcasts env now kept rest
      else sweepBroadcasts env now (kept ++ [e])%list rest
  end.

(** ** The route [GET /api/users]

    The listing maps every user to an object with the same three fields,
    the socket id cut to its first eight code units and followed by
    three dots. *)
Definition partialSocketId (sid : string) : string :=
  substring 0 8 sid ++ "...".

Definition apiUsers (m : JsMap.t User) : list User :=
  map (fun user => mkUser (username user) (partialSocketId (socketId user))
                          (joinTime user))
      (JsMap.values m).

(** ** Further predicates *)

(** The last [online_users] snapshot sent to all sockets, if any. *)
Fixpoint lastSnapshot (es : list Emission) : option (list User) :=
  match es with
  | [] => None
  | e :: rest =>
      match lastSnapshot rest with
      | Some l => Some l
      | None =>
          match e with
          | (ToAll, online_users l) => Some l
          | _ => None
          end
      end
  end.

(** The sender name an outbound event shows to its recipient. *)
Definition shownSender (o : Outbound) : option string :=
  match o with
  | get_media _ _ _ from _ => Some from
  | receive_message from _ _ => Some from
  | user_typing name _ => Some name
  | _ => None
  end.

Definition targetRequired : Outbound := error "Target user is required".

(** The events whose handlers write [onlineUsers]. *)
Definition writesRegistry (ev : Inbound) : bool :=
  match ev with
  | user_join _ | disconnect => true
  | _ => false
  end.

(** A callback whose join, if it is one, carries a name that is already
    trimmed. *)
Definition sendsTrimmedName (cb : Callback) : bool :=
  match cb with
  | OnEvent _ (user_join (Some raw)) => raw =? trim raw
  | _ => true
  end.

(** ** Sample runs *)

Module Sample.

(** A clock that advances one millisecond per reading from [start], and
    a transport on which every socket but those of [gone] is connected. *)
Definition envAt (start : Z) (gone : list string) : Env :=
  mkEnv (fun n => start + Z.of_nat n)
        (fun sid => if existsb (String.eqb sid) gone then None else Some true).

Definition env0 : Env := envAt 1000 [].

(** Sockets [A] and [B] join as alice and bob on the empty registry. *)
Definition aliceAndBob : JsMap.t User :=
  runAll [(env0, OnEvent "A" (user_join (Some "alice")));
          (env0, OnEvent "B" (user_join (Some "bob")))] JsMap.empty.

Definition alice : User := mkUser "alice" "A" 1000.
Definition bob : User := mkUser "bob" "B" 1000.

Definition image : Buffer := [Byte.x89; Byte.x50; Byte.x4e; Byte.x47].

(** Socket [X] joins as bob, socket [B] joins with the raw name " bob",
    socket [A] joins as alice. *)
Definition bobTwice : JsMap.t User :=
  runAll [(env0, OnEvent "X" (user_join (Some "bob")));
          (env0, OnEvent "B" (user_join (Some " bob")));
          (env0, OnEvent "A" (user_join (Some "alice")))] JsMap.empty.

(** The socket whose connection id is the string bob joins as zed, then
    socket [B] joins as bob. *)
Definition zedThenBob : JsMap.t User :=
  runAll [(env0, OnEvent "bob" (user_join (Some "zed")));
          (env0, OnEvent "B" (user_join (Some "bob")))] JsMap.empty.

(** A map whose one record carries a [socketId] other than its key. *)
Definition foreignRecord : JsMap.t User := [("k1", mkUser "zed" "s1" 0)].

End Sample.

Local Open Scope list_scope.

(** ** Facts on [trim] *)

Section TrimFacts.

Lemma trimEnd_idempotent (s : string) : trimEnd (trimEnd s) = trimEnd s.
Proof.
  induction s as [|c r IH]; simpl; [reflexivity|].
  destruct (trimEnd r) as [|c' r'] eqn:E.
  - destruct (isWhiteSpace c) eqn:W; simpl; [reflexivity|].
    now rewrite W.
  - simpl in IH |- *. now rewrite IH.
Qed.

Lemma trimEnd_head (c : ascii) (r : string) :
  isWhiteSpace c = false -> exists r', trimEnd (String c r) = String c r'.
Proof.
  intros W. simpl. destruct (trimEnd r); rewrite ?W; eauto.
Qed.

Lemma trimStart_head (s : string) :
  trimStart s = EmptyString \/
  exists c r, trimStart s = String c r /\ isWhiteSpace c = false.
Proof.
  induction s as [|c r IH]; simpl; [now left|].
  destruct (isWhiteSpace c) eqn:W; [exact IH|].
  right. eauto.
Qed.

Lemma trim_idempotent (s : string) : trim (trim s) = trim s.
Proof.
  unfold trim.
  destruct (trimStart_head s) as [E|(c & r & E & W)]; rewrite E.
  - reflexivity.
  - destruct (trimEnd_head c r W) as [r' E'].
    rewrite E'. simpl trimStart. rewrite W, <- E'.
    apply trimEnd_idempotent.
Qed.

(** A name that differs from its own trim is the trim of no string. *)
Lemma untrimmed_not_a_trim (raw s : string) :
  raw <> trim raw -> trim s = s -> s <> raw.
Proof.
  intros Hraw Hs ->. apply Hraw. now rewrite Hs.
Qed.

End TrimFacts.

(** ** Facts on the map *)

Module JsMapFacts.
Import JsMap.
Section Facts.
Context {V : Type}.
Implicit Types (m : JsMap.t V) (k : string) (v : V).

Lemma get_set_same m k v : get (set m k v) k = Some v.
Proof.
  induction m as [|[k' v'] r IH]; simpl.
  - now rewrite String.eqb_refl.
  - destruct (k' =? k) eqn:E; simpl.
    + now rewrite String.eqb_refl.
    + now rewrite E.
Qed.

Lemma get_set_other m k k' v : k <> k' -> get (set m k v) k' = get m k'.
Proof.
  intros N. induction m as [|[k0 v0] r IH]; simpl.
  - apply String.eqb_neq in N. now rewrite N.
  - destruct (k0 =? k) eqn:E; simpl.
    + apply String.eqb_eq in E. subst k0.
      apply String.eqb_neq in N. now rewrite N.
    + now rewrite IH.
Qed.

Lemma get_delete_other m k k' : k <> k' -> get (delete m k) k' = get m k'.
Proof.
  intros N. induction m as [|[k0 v0] r IH]; simpl; [reflexivity|].
  destruct (k0 =? k) eqn:E; simpl.
  - apply String.eqb_eq in E. subst k0.
    apply String.eqb_neq in N. now rewrite N.
  - now rewrite IH.
Qed.

Lemma get_None_iff m k : get m k = None <-> ~ In k (keys m).
Proof.
  induction m as [|[k0 v0] r IH]; simpl.
  - tauto.
  - destruct (String.eqb_spec k0 k) as [->|N].
    + split; [discriminate|]. intros H. exfalso. apply H. now left.
    + rewrite IH. unfold keys. tauto.
Qed.

Lemma get_In m k v : get m k = Some v -> In (k, v) m.
Proof.
  induction m as [|[k0 v0] r IH]; simpl; [discriminate|].
  destruct (String.eqb_spec k0 k) as [->|N].
  - intros [= ->]. now left.
  - intros H. right. auto.
Qed.

Lemma In_get m k v : ok m -> In (k, v) m -> get m k = Some v.
Proof.
  unfold ok, keys.
  induction m as [|[k0 v0] r IH]; simpl; [tauto|].
  intros Hnd [H|H].
  - injection H as -> ->. now rewrite String.eqb_refl.
  - inversion Hnd as [|? ? Hnot Hnd']; subst.
    destruct (String.eqb_spec k0 k) as [->|N].
    + exfalso. apply Hnot. change k with (fst (k, v)). now apply in_map.
    + auto.
Qed.

Lemma keys_set_in m k v : In k (keys m) -> keys (set m k v) = keys m.
Proof.
  unfold keys. induction m as [|[k0 v0] r IH]; simpl; [tauto|].
  destruct (String.eqb_spec k0 k) as [->|N]; simpl; [reflexivity|].
  intros [H|H]; [congruence|]. now rewrite IH.
Qed.

Lemma keys_set_fresh m k v : ~ In k (keys m) -> set m k v = (m ++ [(k, v)])%list.
Proof.
  unfold keys. induction m as [|[k0 v0] r IH]; simpl; [reflexivity|].
  intros H. destruct (String.eqb_spec k0 k) as [->|N]; [tauto|].
  rewrite IH; tauto.
Qed.

Lemma ok_set m k v : ok m -> ok (set m k v).
Proof.
  intros H. destruct (in_dec string_dec k (keys m)) as [I|I].
  - unfold ok. now rewrite keys_set_in.
  - rewrite keys_set_fresh by assumption.
    unfold ok, keys in *. rewrite map_app. simpl.
    apply NoDup_app; [assumption|repeat constructor; simpl; tauto|].
    intros x Hx [<-|[]]. contradiction.
Qed.

Lemma In_set m k v e : In e (set m k v) -> e = (k, v) \/ In e m.
Proof.
  induction m as [|[k0 v0] r IH]; simpl.
  - intros [H|[]]. now left.
  - destruct (k0 =? k); simpl; intros [H|H]; auto.
    destruct (IH H); auto.
Qed.

Lemma In_delete m k e : In e (delete m k) -> In e m.
Proof.
  induction m as [|[k0 v0] r IH]; simpl; [tauto|].
  destruct (k0 =? k); simpl; [auto|]. intros [H|H]; auto.
Qed.

Lemma delete_app_fresh (pre post : JsMap.t V) k v :
  ~ In k (keys pre) -> delete (pre ++ (k, v) :: post)%list k = (pre ++ post)%list.
Proof.
  unfold keys. induction pre as [|[k0 v0] r IH]; simpl; intros H.
  - now rewrite String.eqb_refl.
  - destruct (String.eqb_spec k0 k) as [->|N]; [tauto|].
    rewrite IH; tauto.
Qed.

Lemma ok_delete m k : ok m -> ok (delete m k).
Proof.
  unfold ok, keys. induction m as [|[k0 v0] r IH]; simpl; intros H; [constructor|].
  inversion H as [|? ? Hnot Hnd]; subst.
  destruct (k0 =? k); simpl; [assumption|].
  constructor; [|auto].
  intros Hin. apply Hnot. apply in_map_iff in Hin as ([k1 v1] & <- & Hin).
  apply in_map_iff. exists (k1, v1). split; [reflexivity|].
  eapply In_delete; eassumption.
Qed.

Lemma get_delete_same m k : ok m -> get (delete m k) k = None.
Proof.
  unfold ok, keys. induction m as [|[k0 v0] r IH]; simpl; intros H; [reflexivity|].
  inversion H as [|? ? Hnot Hnd]; subst.
  destruct (String.eqb_spec k0 k) as [->|N]; simpl.
  - now apply get_None_iff.
  - apply String.eqb_neq in N. rewrite N. auto.
Qed.
End Facts.
End JsMapFacts.

(** ** Facts on [findIn] *)

Section FindFacts.

Lemma findIn_Some (m : JsMap.t User) (name : string) (u : User) :
  findIn m name = Some u -> username u = name /\ exists k, In (k, u) m.
Proof.
  induction m as [|[k v] r IH]; simpl; [discriminate|].
  destruct (String.eqb_spec (username v) name) as [E|N].
  - intros [= <-]. split; [assumption|]. exists k. now left.
  - intros H. destruct (IH H) as [E [k' I]]. split; [assumption|].
    exists k'. now right.
Qed.

Lemma findIn_None (m : JsMap.t User) (name : string) :
  findIn m name = None <-> (forall e, In e m -> username (snd e) <> name).
Proof.
  induction m as [|[k v] r IH]; simpl.
  - split; [intros _ e []|reflexivity].
  - destruct (String.eqb_spec (username v) name) as [E|N].
    + split; [discriminate|]. intros H. exfalso.
      exact (H (k, v) (or_introl eq_refl) E).
    + rewrite IH. split.
      * intros H e [<-|I]; [exact N|auto].
      * intros H e I. apply H. now right.
Qed.

(** With unique names, a name resolves to the session that carries it. *)
Lemma findIn_unique (m : JsMap.t User) (k : string) (u : User) :
  uniqueNames m -> In (k, u) m -> findIn m (username u) = Some u.
Proof.
  unfold uniqueNames, JsMap.values.
  induction m as [|[k0 v0] r IH]; simpl; [tauto|].
  intros Hnd [H|H].
  - injection H as -> ->. now rewrite String.eqb_refl.
  - inversion Hnd as [|? ? Hnot Hnd']; subst.
    destruct (String.eqb_spec (username v0) (username u)) as [E|N].
    + exfalso. apply Hnot. rewrite E.
      apply in_map_iff. exists u. split; [reflexivity|].
      apply in_map_iff. exists (k, u). auto.
    + auto.
Qed.

(** In a registry of trimmed names, a raw name that carries surrounding
    white space resolves to nothing. *)
Lemma findIn_untrimmed (m : JsMap.t User) (raw : string) :
  Forall entryOk m -> raw <> trim raw -> findIn m raw = None.
Proof.
  intros Hok Hraw. apply findIn_None. intros e I.
  rewrite Forall_forall in Hok. destruct (Hok e I) as (_ & T & _).
  now apply untrimmed_not_a_trim.
Qed.

End FindFacts.

(** ** What each handler leaves *)

Ltac exec :=
  unfold usersAfter, emits, run, callback, handle, on_user_join, on_media_upload,
    on_image_upload, on_typing, on_send_message, on_get_user_info,
    on_disconnect, on_ping, sweep, broadcastOnlineUsers, getOnlineUsersList,
    findUserByUsername, bind, ret, readUsers, writeUsers, emit, newDate;
  cbn.

(** Case analysis on whatever the handler branches on next. *)
Ltac cases :=
  repeat (cbn; try reflexivity;
          match goal with
          | |- context [match ?x with _ => _ end] => destruct x eqn:?
          end).

Section HandlerEquations.
Variables (env : Env) (m : JsMap.t User) (sid : string).

Lemma falsy_trim (raw : string) :
  falsy (Some raw) || (trim raw =? EmptyString) = (trim raw =? EmptyString).
Proof.
  simpl. destruct (String.eqb_spec raw EmptyString) as [->|N]; reflexivity.
Qed.

Lemma run_join_absent :
  run (on_user_join sid None) env m = (m, [(ToSocket sid, emptyName)]).
Proof. reflexivity. Qed.

Lemma run_join_blank (raw : string) :
  trim raw = EmptyString ->
  run (on_user_join sid (Some raw)) env m = (m, [(ToSocket sid, emptyName)]).
Proof.
  intros E. unfold on_user_join. rewrite falsy_trim, E. reflexivity.
Qed.

Lemma run_join_taken (raw : string) (u : User) :
  trim raw <> EmptyString -> findIn m raw = Some u ->
  run (on_user_join sid (Some raw)) env m = (m, [(ToSocket sid, duplicateName)]).
Proof.
  intros N F. unfold on_user_join. rewrite falsy_trim.
  apply String.eqb_neq in N. rewrite N. exec. now rewrite F.
Qed.

Lemma run_join_fresh (raw : string) :
  trim raw <> EmptyString -> findIn m raw = None ->
  run (on_user_join sid (Some raw)) env m =
    let m' := JsMap.set m sid (mkUser (trim raw) sid (clock env 0)) in
    (m', [(ToOthers sid, user_joined (trim raw) sid);
          (ToAll, online_users (JsMap.values m'));
          (ToSocket sid, join_success (trim raw) (JsMap.values m'))]).
Proof.
  intros N F. unfold on_user_join. rewrite falsy_trim.
  apply String.eqb_neq in N. rewrite N. exec. now rewrite F.
Qed.

Lemma run_disconnect_joined (u : User) :
  JsMap.get m sid = Some u ->
  run (on_disconnect sid) env m =
    (JsMap.delete m sid,
     [(ToOthers sid, user_left (username u) sid);
      (ToAll, online_users (JsMap.values (JsMap.delete m sid)))]).
Proof. intros G. exec. now rewrite G. Qed.

Lemma run_disconnect_unjoined :
  JsMap.get m sid = None -> run (on_disconnect sid) env m = (m, []).
Proof. intros G. exec. now rewrite G. Qed.

Lemma run_image_upload (buffer : Buffer) (id : string) :
  run (on_image_upload sid buffer id) env m =
    (m, [(ToRoom (legacyAddressee m id), get_image buffer)]).
Proof.
  exec. unfold legacyAddressee.
  destruct (findIn m id); [reflexivity|].
  destruct (JsMap.get m id); reflexivity.
Qed.

Lemma run_send_unjoined (targetUser message : option string) :
  JsMap.get m sid = None ->
  run (on_send_message sid targetUser message) env m =
    (m, [(ToSocket sid, notJoined)]).
Proof. intros G. exec. now rewrite G. Qed.

Lemma run_send_invalid (sender : User) (targetUser message : option string) :
  JsMap.get m sid = Some sender ->
  falsy targetUser || falsy message = true ->
  run (on_send_message sid targetUser message) env m =
    (m, [(ToSocket sid, missingField)]).
Proof.
  intros G F. exec. rewrite G.
  destruct targetUser as [t|], message as [msg|]; try reflexivity.
  now rewrite F.
Qed.

Lemma run_send_offline (sender : User) (target msg : string) :
  JsMap.get m sid = Some sender ->
  target <> EmptyString -> msg <> EmptyString ->
  findIn m (trim target) = None ->
  run (on_send_message sid (Some target) (Some msg)) env m =
    (m, [(ToSocket sid, recipientNotFound target)]).
Proof.
  intros G Nt Nm F. exec. rewrite G.
  apply String.eqb_neq in Nt, Nm. unfold falsy. rewrite Nt, Nm. simpl.
  now rewrite F.
Qed.

Lemma run_send_delivered (sender t : User) (target msg : string) :
  JsMap.get m sid = Some sender ->
  target <> EmptyString -> msg <> EmptyString ->
  findIn m (trim target) = Some t ->
  run (on_send_message sid (Some target) (Some msg)) env m =
    (m, [(ToRoom (socketId t),
          receive_message (username sender) (trim msg) (clock env 0));
         (ToSocket sid, message_sent target (trim msg) (clock env 1))]).
Proof.
  intros G Nt Nm F. exec. rewrite G.
  apply String.eqb_neq in Nt, Nm. unfold falsy. rewrite Nt, Nm. simpl.
  now rewrite F.
Qed.

Lemma run_media_unjoined buffer targetUser mediaType filename :
  JsMap.get m sid = None ->
  run (on_media_upload sid buffer targetUser mediaType filename) env m =
    (m, [(ToSocket sid, notJoined)]).
Proof. intros G. exec. now rewrite G. Qed.

Lemma run_typing_unjoined (isTyping : bool) (targetUser : option string) :
  JsMap.get m sid = None ->
  run (on_typing isTyping sid targetUser) env m = (m, []).
Proof. intros G. exec. now rewrite G. Qed.

(** The handlers that only read the registry. *)
Lemma users_after_reader (ev : Inbound) :
  match ev with user_join _ | disconnect => False | _ => True end ->
  usersAfter (handle sid ev) env m = m.
Proof.
  destruct ev as [name|buffer targetUser mediaType filename|buffer id
                  |targetUser|targetUser|targetUser message| | |];
    intros H; try contradiction; exec; cases.
Qed.
End HandlerEquations.

(** ** The sweep, entry by entry *)

Section SweepFacts.
Import JsMapFacts.
Variable env : Env.
Variable now : Z.

Let stays (e : string * User) : bool := negb (reaped env now e).

Lemma sweepEntry_reaped (k : string) (u : User) (w : World) :
  reaped env now (k, u) = true ->
  sweepEntry now (k, u) env w =
    (tt, mkWorld (JsMap.delete (onlineUsers w) k)
                 (emitted w ++
                  [(ToAll, online_users (JsMap.values (JsMap.delete (onlineUsers w) k)))])
                 (clockReads w)).
Proof.
  unfold reaped, pastThreshold, connectedNow. simpl.
  intros H. apply andb_true_iff in H as [P C].
  unfold sweepEntry, socketAlive. rewrite P. exec. now rewrite C.
Qed.

Lemma sweepEntry_stays (k : string) (u : User) (w : World) :
  reaped env now (k, u) = false -> sweepEntry now (k, u) env w = (tt, w).
Proof.
  unfold reaped, pastThreshold, connectedNow. simpl.
  intros H. unfold sweepEntry, socketAlive.
  destruct (now - joinTime u >? staleThreshold); [|reflexivity].
  simpl in H. exec. now rewrite H.
Qed.

Lemma sweepLoop_spec (todo kept : JsMap.t User) (ems : list Emission) (n : nat) :
  JsMap.ok (kept ++ todo) ->
  sweepLoop now todo env (mkWorld (kept ++ todo) ems n) =
    (tt, mkWorld (kept ++ filter stays todo)
                 (ems ++ sweepBroadcasts env now kept todo) n).
Proof.
  revert kept ems.
  induction todo as [|[k u] rest IH]; intros kept ems Hok.
  - simpl. now rewrite !app_nil_r.
  - cbn [sweepLoop sweepBroadcasts filter]. unfold bind, stays at 1.
    destruct (reaped env now (k, u)) eqn:R; cbn [negb].
    + rewrite sweepEntry_reaped by assumption. cbn [onlineUsers emitted clockReads].
      assert (Hfresh : ~ In k (JsMap.keys kept)).
      { unfold JsMap.ok, JsMap.keys in Hok. rewrite map_app in Hok.
        simpl in Hok. apply NoDup_remove_2 in Hok.
        intros I. apply Hok. apply in_or_app. now left. }
      rewrite delete_app_fresh by assumption.
      rewrite IH.
      * now rewrite <- app_assoc.
      * unfold JsMap.ok, JsMap.keys in *. rewrite map_app in *.
        simpl in Hok. now apply NoDup_remove_1 in Hok.
    + rewrite sweepEntry_stays by assumption.
      change (kept ++ (k, u) :: rest) with (kept ++ [(k, u)] ++ rest) in *.
      rewrite app_assoc in *. rewrite IH by assumption.
      now rewrite <- app_assoc.
Qed.

Lemma sweepBroadcasts_length (todo kept : JsMap.t User) :
  length (sweepBroadcasts env now kept todo) = length (filter (reaped env now) todo).
Proof.
  revert kept. induction todo as [|e rest IH]; intros kept; simpl; [reflexivity|].
  destruct (reaped env now e); simpl; now rewrite IH.
Qed.

Lemma sweepBroadcasts_presence (todo kept : JsMap.t User) :
  forallb isPresenceBroadcast (sweepBroadcasts env now kept todo) = true.
Proof.
  revert kept. induction todo as [|e rest IH]; intros kept; simpl; [reflexivity|].
  destruct (reaped env now e); simpl; apply IH.
Qed.
End SweepFacts.

Lemma run_sweep (env : Env) (m : JsMap.t User) :
  JsMap.ok m ->
  run sweep env m =
    (filter (fun e => negb (reaped env (clock env 0) e)) m,
     sweepBroadcasts env (clock env 0) [] m).
Proof.
  intros Hok. unfold run, sweep, bind, newDate, readUsers.
  cbn [onlineUsers emitted clockReads].
  pose proof (sweepLoop_spec env (clock env 0) m [] [] 1 Hok) as E.
  cbn [app] in E. now rewrite E.
Qed.

(** ** Filtering a map *)

Section FilterFacts.
Import JsMapFacts.
Variable f : string * User -> bool.

Lemma keys_filter_In (m : JsMap.t User) (k : string) :
  In k (JsMap.keys (filter f m)) -> In k (JsMap.keys m).
Proof.
  unfold JsMap.keys. intros H.
  apply in_map_iff in H as (e & <- & I).
  apply filter_In in I as [I _]. now apply in_map.
Qed.

Lemma ok_filter (m : JsMap.t User) : JsMap.ok m -> JsMap.ok (filter f m).
Proof.
  unfold JsMap.ok.
  induction m as [|e r IH]; simpl; intros H; [constructor|].
  inversion H as [|? ? Hnot Hnd]; subst.
  destruct (f e); simpl; [|auto].
  constructor; [|auto].
  intros I. apply Hnot. now apply keys_filter_In.
Qed.

Lemma get_filter_kept (m : JsMap.t User) (k : string) (u : User) :
  JsMap.ok m -> In (k, u) m -> f (k, u) = true ->
  JsMap.get (filter f m) k = Some u.
Proof.
  intros Hok I F. apply In_get; [now apply ok_filter|].
  apply filter_In. now split.
Qed.

Lemma get_filter_dropped (m : JsMap.t User) (k : string) (u : User) :
  JsMap.ok m -> In (k, u) m -> f (k, u) = false ->
  JsMap.get (filter f m) k = None.
Proof.
  intros Hok I F. apply get_None_iff. intros H.
  apply in_map_iff in H as ([k' v] & E & I'). simpl in E. subst k'.
  apply filter_In in I' as [I' F'].
  pose proof (In_get _ _ _ Hok I) as G.
  pose proof (In_get _ _ _ Hok I') as G'.
  rewrite G in G'. injection G' as <-. congruence.
Qed.
End FilterFacts.

(** ** The invariant of the registry *)

Section Invariant.
Import JsMapFacts.

Lemma registryOk_empty : registryOk JsMap.empty.
Proof. split; constructor. Qed.

Lemma registryOk_set (m : JsMap.t User) (sid raw : string) (now : Z) :
  trim raw <> EmptyString -> registryOk m ->
  registryOk (JsMap.set m sid (mkUser (trim raw) sid now)).
Proof.
  intros N [Hok Hall]. split; [now apply ok_set|].
  apply Forall_forall. intros e I.
  apply In_set in I as [->|I].
  - repeat split; simpl; [apply trim_idempotent|assumption].
  - rewrite Forall_forall in Hall. auto.
Qed.

Lemma registryOk_delete (m : JsMap.t User) (sid : string) :
  registryOk m -> registryOk (JsMap.delete m sid).
Proof.
  intros [Hok Hall]. split; [now apply ok_delete|].
  rewrite Forall_forall in *. intros e I. apply Hall.
  eapply In_delete; eassumption.
Qed.

Lemma registryOk_filter (f : string * User -> bool) (m : JsMap.t User) :
  registryOk m -> registryOk (filter f m).
Proof.
  intros [Hok Hall]. split; [now apply ok_filter|].
  rewrite Forall_forall in *. intros e I. apply Hall.
  now apply filter_In in I.
Qed.

Lemma registryOk_join env m sid name :
  registryOk m -> registryOk (usersAfter (on_user_join sid name) env m).
Proof.
  intros H. unfold usersAfter. destruct name as [raw|].
  - destruct (String.eqb_spec (trim raw) EmptyString) as [E|N].
    + now rewrite run_join_blank.
    + destruct (findIn m raw) as [u|] eqn:F.
      * now rewrite (run_join_taken env m sid raw u).
      * rewrite run_join_fresh by assumption. simpl.
        now apply registryOk_set.
  - now rewrite run_join_absent.
Qed.

Lemma registryOk_disconnect env m sid :
  registryOk m -> registryOk (usersAfter (on_disconnect sid) env m).
Proof.
  intros H. unfold usersAfter. destruct (JsMap.get m sid) as [u|] eqn:G.
  - rewrite (run_disconnect_joined env m sid u G). simpl.
    now apply registryOk_delete.
  - now rewrite run_disconnect_unjoined.
Qed.

Lemma registryOk_callback env m cb :
  registryOk m -> registryOk (usersAfter (callback cb) env m).
Proof.
  intros H. destruct cb as [sid ev|].
  - change (callback (OnEvent sid ev)) with (handle sid ev).
    destruct ev;
      first [ rewrite users_after_reader; [assumption|exact I]
            | now apply registryOk_join
            | now apply registryOk_disconnect ].
  - unfold usersAfter. change (callback OnTimer) with sweep.
    rewrite run_sweep by apply H.
    now apply registryOk_filter.
Qed.

Lemma reachable_ok (m : JsMap.t User) : reachable m -> registryOk m.
Proof.
  induction 1 as [|env m cb _ IH].
  - apply registryOk_empty.
  - now apply registryOk_callback.
Qed.

Lemma runAll_reachable (cbs : list (Env * Callback)) (m : JsMap.t User) :
  reachable m -> reachable (runAll cbs m).
Proof.
  revert m. induction cbs as [|[env cb] rest IH]; intros m H; simpl.
  - assumption.
  - apply IH. now constructor.
Qed.
End Invariant.

(** ** Delivery of a list of emits *)

Section Delivery.

Lemma received_to_socket (sid c : string) (o : Outbound) :
  c <> sid -> received c [(ToSocket sid, o)] = [].
Proof.
  intros N. unfold received. simpl.
  destruct (String.eqb_spec sid c); [congruence|reflexivity].
Qed.

End Delivery.

(** * Properties *)

(** ** Registration *)

(** A join whose raw name is exactly a name in use is refused and changes
    nothing; this is the extent of the uniqueness check. *)
Lemma join_exact_name_refused env m sid k u :
  registryOk m -> In (k, u) m ->
  run (on_user_join sid (Some (username u))) env m =
    (m, [(ToSocket sid, duplicateName)]).
Proof.
  intros [_ Hall] I.
  rewrite Forall_forall in Hall. destruct (Hall _ I) as (_ & T & N).
  simpl in T, N.
  destruct (findIn m (username u)) as [v|] eqn:F.
  - apply run_join_taken with (u := v); [now rewrite T|assumption].
  - exfalso. rewrite findIn_None in F. now apply (F _ I).
Qed.

(** A join accepted under a name that no session carries keeps display
    names unique, also when it replaces the record of its own socket. *)
Lemma set_fresh_name_unique (m : JsMap.t User) (sid name : string) (now : Z) :
  uniqueNames m -> findIn m name = None ->
  uniqueNames (JsMap.set m sid (mkUser name sid now)).
Proof.
  unfold uniqueNames, JsMap.values.
  induction m as [|[k v] r IH]; simpl; intros Hnd F.
  - repeat constructor. simpl. tauto.
  - destruct (String.eqb_spec (username v) name) as [E|N]; [discriminate|].
    inversion Hnd as [|? ? Hnot Hnd']; subst.
    destruct (k =? sid); simpl.
    + constructor; [|assumption].
      intros I. rewrite findIn_None in F.
      apply in_map_iff in I as (u & Eu & I).
      apply in_map_iff in I as (e & <- & I). exact (F e I Eu).
    + constructor; [|auto].
      intros I. apply in_map_iff in I as (u & Eu & I).
      apply in_map_iff in I as (e & <- & I).
      apply JsMapFacts.In_set in I as [->|I]; [simpl in Eu; congruence|].
      apply Hnot. apply in_map_iff. exists (snd e). split; [assumption|].
      now apply in_map.
Qed.

(** C1 (defect): the uniqueness check looks up the raw name while the
    stored names are trimmed.  After socket A has joined as "bob", the
    join of socket B with the raw name " bob" is not refused: B receives
    [join_success], and the registry holds two sessions named "bob". *)
Theorem join_untrimmed_name_duplicates (env env' : Env) :
  let m1 := usersAfter (handle "A" (user_join (Some "bob"))) env JsMap.empty in
  let m2 := usersAfter (handle "B" (user_join (Some " bob"))) env' m1 in
  let out := emits (handle "B" (user_join (Some " bob"))) env' m1 in
  trim " bob" = "bob" /\
  findIn m1 "bob" = Some (mkUser "bob" "A" (clock env 0)) /\
  m2 = [("A", mkUser "bob" "A" (clock env 0));
        ("B", mkUser "bob" "B" (clock env' 0))] /\
  received "B" out =
    [online_users (JsMap.values m2); join_success "bob" (JsMap.values m2)] /\
  ~ uniqueNames m2.
Proof.
  cbv zeta. repeat split.
  intros H. unfold uniqueNames in H. cbn in H.
  inversion H as [|? ? Hnot _]. apply Hnot. now left.
Qed.

(** C8: a raw name that is absent, empty or all white space is answered
    with 'Username is required' and adds nothing to the registry; a raw
    name carrying surrounding white space around a non-empty core is
    accepted, and the session stored for the socket carries the trimmed
    name. *)
Theorem join_trims_name (env : Env) (m : JsMap.t User) (sid raw : string) :
  registryOk m ->
  run (handle sid (user_join None)) env m = (m, [(ToSocket sid, emptyName)]) /\
  (trim raw = EmptyString ->
     run (handle sid (user_join (Some raw))) env m =
       (m, [(ToSocket sid, emptyName)])) /\
  (trim raw <> EmptyString -> raw <> trim raw ->
     let m' := usersAfter (handle sid (user_join (Some raw))) env m in
     JsMap.get m' sid = Some (mkUser (trim raw) sid (clock env 0)) /\
     received sid (emits (handle sid (user_join (Some raw))) env m) =
       [online_users (JsMap.values m'); join_success (trim raw) (JsMap.values m')]).
Proof.
  intros [Hok Hall]. split; [reflexivity|]. split.
  - intros E. now apply run_join_blank.
  - intros N W. cbv zeta. unfold usersAfter, emits.
    change (handle sid (user_join (Some raw))) with (on_user_join sid (Some raw)).
    rewrite run_join_fresh by (auto using findIn_untrimmed).
    cbn [fst snd]. split.
    + apply JsMapFacts.get_set_same.
    + unfold received. cbn. now rewrite String.eqb_refl.
Qed.

Lemma join_trims_name_witness :
  run (handle "A" (user_join (Some EmptyString))) Sample.env0 Sample.aliceAndBob =
    (Sample.aliceAndBob, [(ToSocket "A", emptyName)]) /\
  run (handle "C" (user_join (Some "   "))) Sample.env0 Sample.aliceAndBob =
    (Sample.aliceAndBob, [(ToSocket "C", emptyName)]) /\
  JsMap.get (usersAfter (handle "C" (user_join (Some "  Bob  "))) Sample.env0
                        Sample.aliceAndBob) "C"
    = Some (mkUser "Bob" "C" 1000).
Proof.
  assert (Hok : registryOk Sample.aliceAndBob).
  { apply reachable_ok, runAll_reachable, reach_start. }
  split; [|split].
  - apply (proj1 (proj2 (join_trims_name Sample.env0 Sample.aliceAndBob
                           "A" EmptyString Hok))).
    reflexivity.
  - apply (proj1 (proj2 (join_trims_name Sample.env0 Sample.aliceAndBob
                           "C" "   " Hok))).
    reflexivity.
  - apply (proj2 (proj2 (join_trims_name Sample.env0 Sample.aliceAndBob
                           "C" "  Bob  " Hok))).
    + vm_compute. discriminate.
    + vm_compute. discriminate.
Defined.

(** ** Senders that have not joined *)

(** C2 (as stated, refuted): a legacy media event of a socket that never
    joined is routed all the same.  With alice and bob registered on A
    and B, [image_upload {buffer, id: "bob"}] from the unregistered
    socket X delivers [get_image] to B. *)
Lemma legacy_media_from_unjoined_sender :
  let ev := image_upload Sample.image "bob" in
  JsMap.get Sample.aliceAndBob "X" = None /\
  isRouting ev = true /\
  received "B" (emits (handle "X" ev) Sample.env0 Sample.aliceAndBob)
    = [get_image Sample.image] /\
  ~ reachesSenderOnly "X" (emits (handle "X" ev) Sample.env0 Sample.aliceAndBob).
Proof.
  cbv zeta. repeat split.
  intros H. specialize (H "B"). vm_compute in H.
  assert (E : "B" <> "X") by discriminate.
  specialize (H E). discriminate H.
Qed.

(** C2 (amended): a media transfer or a text message of a socket that
    has not joined is answered with 'Please join with a username first'
    to that socket and nothing else; a typing signal of such a socket
    emits nothing; in all three the registry is unchanged and no other
    socket receives anything.  A legacy media event is routed by its
    [id] whether or not its sender has joined. *)
Theorem unjoined_sender_routing (env : Env) (m : JsMap.t User) (sid : string)
    (ev : Inbound) :
  JsMap.get m sid = None -> isRouting ev = true ->
  if isLegacy ev then
    exists buffer id,
      ev = image_upload buffer id /\
      run (handle sid ev) env m =
        (m, [(ToRoom (legacyAddressee m id), get_image buffer)])
  else
    run (handle sid ev) env m =
      (m, if reportsNotJoined ev then [(ToSocket sid, notJoined)] else []) /\
    reachesSenderOnly sid (emits (handle sid ev) env m).
Proof.
  intros G R.
  destruct ev as [name|buffer targetUser mediaType filename|buffer id
                  |targetUser|targetUser|targetUser message| | |];
    try discriminate R; cbn [isLegacy reportsNotJoined handle].
  - unfold emits. rewrite run_media_unjoined by assumption.
    split; [reflexivity|]. intros c N. now apply received_to_socket.
  - exists buffer, id. split; [reflexivity|]. apply run_image_upload.
  - unfold emits. rewrite run_typing_unjoined by assumption. now split.
  - unfold emits. rewrite run_typing_unjoined by assumption. now split.
  - unfold emits. rewrite run_send_unjoined by assumption.
    split; [reflexivity|]. intros c N. now apply received_to_socket.
Qed.

Lemma unjoined_sender_routing_witness :
  run (handle "X" (send_message (Some "bob") (Some "hi"))) Sample.env0
      Sample.aliceAndBob
    = (Sample.aliceAndBob, [(ToSocket "X", notJoined)]) /\
  run (handle "X" (typing_start (Some "bob"))) Sample.env0 Sample.aliceAndBob
    = (Sample.aliceAndBob, []).
Proof.
  split.
  - apply (unjoined_sender_routing Sample.env0 Sample.aliceAndBob "X"
             (send_message (Some "bob") (Some "hi"))); reflexivity.
  - apply (unjoined_sender_routing Sample.env0 Sample.aliceAndBob "X"
             (typing_start (Some "bob"))); reflexivity.
Defined.

(** ** Life of a session record *)

(** C3 (as stated, refuted): socket A joins as alice and later sends a
    second [user_join] with the unused name carol; [onlineUsers.set]
    replaces the record of A, name and join time. *)
Lemma rejoin_overwrites_session :
  let m := usersAfter (handle "A" (user_join (Some "alice"))) Sample.env0
                      JsMap.empty in
  let m' := usersAfter (handle "A" (user_join (Some "carol")))
                       (Sample.envAt 2000 []) m in
  JsMap.get m "A" = Some (mkUser "alice" "A" 1000) /\
  JsMap.get m' "A" = Some (mkUser "carol" "A" 2000) /\
  JsMap.get m' "A" <> JsMap.get m "A".
Proof.
  cbv zeta. repeat split. vm_compute. discriminate.
Qed.

(** C3 (amended): the record of a registered socket is left as it is by
    every callback that is neither a [user_join] on that socket, nor its
    disconnect, nor the sweep.  Its disconnect removes the record; the
    sweep removes it when it is past the threshold with no connected
    socket and leaves it as it is otherwise.  A further [user_join] on
    the socket leaves the record as it is when the name is absent, empty
    or all white space, and when the name, free of surrounding white
    space, is carried by a session (the socket's own included); when the
    trimmed name is non-empty and carried by no session, the join
    replaces the record by one with the same [socketId], the trimmed
    name and the time of the new join. *)
Theorem session_record_stability (env : Env) (m : JsMap.t User) (sid : string)
    (u : User) (cb : Callback) :
  registryOk m -> JsMap.get m sid = Some u ->
  let after := JsMap.get (usersAfter (callback cb) env m) sid in
  (isJoinOf sid cb = false -> mayRemove sid cb = false -> after = Some u) /\
  (cb = OnEvent sid disconnect -> after = None) /\
  (cb = OnTimer ->
     after = if reaped env (clock env 0) (sid, u) then None else Some u) /\
  (cb = OnEvent sid (user_join None) -> after = Some u) /\
  (forall raw, cb = OnEvent sid (user_join (Some raw)) ->
     (trim raw = EmptyString -> after = Some u) /\
     (raw = trim raw -> findIn m raw <> None -> after = Some u) /\
     (trim raw <> EmptyString -> findIn m (trim raw) = None ->
        after = Some (mkUser (trim raw) sid (clock env 0)))).
Proof.
  intros Hreg G. pose proof (proj1 Hreg) as Hok. cbv zeta.
  split; [|split; [|split; [|split]]].
  - (* callbacks that do not touch the entry *)
    destruct cb as [s ev|]; [|discriminate].
    change (callback (OnEvent s ev)) with (handle s ev).
    destruct ev as [name|buffer targetUser mediaType filename|buffer id
                    |targetUser|targetUser|targetUser message|ack| |];
      cbn [isJoinOf mayRemove];
      try (rewrite users_after_reader by exact I; intros; assumption).
    + intros J _. apply String.eqb_neq in J.
      unfold usersAfter. cbn [handle].
      destruct name as [raw|]; [|now rewrite run_join_absent].
      destruct (String.eqb_spec (trim raw) EmptyString) as [E|N];
        [now rewrite run_join_blank|].
      destruct (findIn m raw) as [v|] eqn:F;
        [now rewrite (run_join_taken env m s raw v)|].
      rewrite run_join_fresh by assumption. cbn [fst].
      now rewrite JsMapFacts.get_set_other.
    + intros _ J. apply String.eqb_neq in J.
      unfold usersAfter. cbn [handle].
      destruct (JsMap.get m s) as [v|] eqn:Gs.
      * rewrite (run_disconnect_joined env m s v Gs). cbn [fst].
        now rewrite JsMapFacts.get_delete_other.
      * now rewrite run_disconnect_unjoined.
  - (* its own disconnect *)
    intros ->. unfold usersAfter. cbn [callback handle].
    rewrite (run_disconnect_joined env m sid u G). cbn [fst].
    now apply JsMapFacts.get_delete_same.
  - (* the sweep *)
    intros ->. change (callback OnTimer) with sweep.
    unfold usersAfter. rewrite run_sweep by assumption. cbn [fst].
    pose proof (JsMapFacts.get_In _ _ _ G) as I.
    destruct (reaped env (clock env 0) (sid, u)) eqn:R.
    + apply get_filter_dropped with (u := u); [assumption..|]. now rewrite R.
    + apply get_filter_kept; [assumption..|]. now rewrite R.
  - (* a join without a name *)
    intros ->. unfold usersAfter. cbn [callback handle].
    now rewrite run_join_absent.
  - (* a join with a name *)
    intros raw ->. unfold usersAfter. cbn [callback handle].
    split; [|split].
    + intros E. now rewrite run_join_blank.
    + intros T F. destruct (findIn m raw) as [v|] eqn:Fv; [|contradiction].
      destruct (String.eqb_spec (trim raw) EmptyString) as [E|N];
        [now rewrite run_join_blank|].
      now rewrite (run_join_taken env m sid raw v).
    + intros N F.
      assert (Fr : findIn m raw = None).
      { destruct (string_dec raw (trim raw)) as [E|Ne].
        - now rewrite E.
        - apply findIn_untrimmed; [apply Hreg|assumption]. }
      rewrite run_join_fresh by assumption.
      cbn [fst]. apply JsMapFacts.get_set_same.
Qed.

Lemma session_record_stability_witness :
  JsMap.get (usersAfter (callback (OnEvent "B" (user_join (Some "carol"))))
                        Sample.env0 Sample.aliceAndBob) "A"
    = Some Sample.alice /\
  JsMap.get (usersAfter (callback (OnEvent "A" (user_join (Some "alice"))))
                        Sample.env0 Sample.aliceAndBob) "A"
    = Some Sample.alice /\
  JsMap.get (usersAfter (callback (OnEvent "A" (user_join (Some " carol "))))
                        (Sample.envAt 2000 []) Sample.aliceAndBob) "A"
    = Some (mkUser "carol" "A" 2000).
Proof.
  assert (Hok : registryOk Sample.aliceAndBob).
  { apply reachable_ok, runAll_reachable, reach_start. }
  split; [|split].
  - apply (proj1 (session_record_stability Sample.env0 Sample.aliceAndBob "A"
                    Sample.alice (OnEvent "B" (user_join (Some "carol"))) Hok
                    eq_refl)); reflexivity.
  - destruct (session_record_stability Sample.env0 Sample.aliceAndBob "A"
                Sample.alice (OnEvent "A" (user_join (Some "alice"))) Hok
                eq_refl) as (_ & _ & _ & _ & H).
    destruct (H "alice" eq_refl) as (_ & H2 & _).
    apply H2; [reflexivity|vm_compute; discriminate].
  - destruct (session_record_stability (Sample.envAt 2000 []) Sample.aliceAndBob
                "A" Sample.alice (OnEvent "A" (user_join (Some " carol "))) Hok
                eq_refl) as (_ & _ & _ & _ & H).
    destruct (H " carol " eq_refl) as (_ & _ & H3).
    apply H3; [vm_compute; discriminate|reflexivity].
Defined.

(** ** Departures *)

(** What a disconnect of a registered socket leaves: the entry is gone,
    the other sockets are told [user_left] and everyone gets a snapshot. *)
Lemma disconnect_notifies (env : Env) (m : JsMap.t User) (sid c : string)
    (u : User) :
  JsMap.get m sid = Some u -> c <> sid ->
  received c (emits (handle sid disconnect) env m) =
    [user_left (username u) sid; online_users (JsMap.values (JsMap.delete m sid))].
Proof.
  intros G N. unfold emits. cbn [handle].
  rewrite (run_disconnect_joined env m sid u G). unfold received. cbn.
  destruct (String.eqb_spec sid c); [congruence|reflexivity].
Qed.

(** Every emit of a sweep is a presence snapshot to all sockets. *)
Lemma sweep_emits_snapshots_only (env : Env) (m : JsMap.t User) :
  JsMap.ok m -> forallb isPresenceBroadcast (emits sweep env m) = true.
Proof.
  intros Hok. unfold emits. rewrite run_sweep by assumption.
  apply sweepBroadcasts_presence.
Qed.

(** C4 (defect): the sweep removes a session without the [user_left]
    notice that the disconnect handler sends.  With alice and bob
    registered on A and B at time 1000, a sweep at time 400000 that finds
    no socket for A removes alice; B receives one [online_users]
    snapshot and no [user_left], whereas the disconnect of A on the same
    registry makes B receive [user_left] for alice and the snapshot. *)
Theorem sweep_omits_user_left :
  let env := Sample.envAt 400000 ["A"] in
  run sweep env Sample.aliceAndBob =
    ([("B", Sample.bob)], [(ToAll, online_users [Sample.bob])]) /\
  received "B" (emits sweep env Sample.aliceAndBob) = [online_users [Sample.bob]] /\
  existsb isUserLeft (received "B" (emits sweep env Sample.aliceAndBob)) = false /\
  received "B" (emits (handle "A" disconnect) env Sample.aliceAndBob) =
    [user_left "alice" "A"; online_users [Sample.bob]].
Proof.
  cbv zeta. repeat split.
Qed.

(** ** Text messages *)

(** C5 (defect): the end-to-end delivery to bob fails in a registry the
    server reaches through the untrimmed duplicate check of [user_join].
    Socket X joins as bob, socket B joins with the raw name " bob" and is
    registered as bob too, socket A joins as alice.  The text message
    [{targetUser: "bob", message: "hi"}] of A is delivered to X, the
    first session named bob; B receives nothing. *)
Theorem text_message_reaches_first_duplicate :
  let m := Sample.bobTwice in
  let out := emits (handle "A" (send_message (Some "bob") (Some "hi")))
                   Sample.env0 m in
  reachable m /\
  JsMap.get m "A" = Some (mkUser "alice" "A" 1000) /\
  JsMap.get m "B" = Some (mkUser "bob" "B" 1000) /\
  JsMap.get m "X" = Some (mkUser "bob" "X" 1000) /\
  received "B" out = [] /\
  received "X" out = [receive_message "alice" "hi" 1000] /\
  received "A" out = [message_sent "bob" "hi" 1001].
Proof.
  cbv zeta. split; [|repeat split].
  unfold Sample.bobTwice. apply runAll_reachable, reach_start.
Qed.

(** Where display names are unique, which is what the duplicate check is
    there for, the delivery is as expected: with alice registered on
    socket A and bob on socket B, the text message
    [{targetUser: "bob", message: "hi"}] of A makes B receive exactly one
    [receive_message] from alice with text hi, A exactly one
    [message_sent] to bob with text hi, and every other socket nothing;
    the registry is unchanged. *)
Theorem text_message_end_to_end (env : Env) (m : JsMap.t User) (A B : string)
    (ua ub : User) :
  registryOk m -> uniqueNames m ->
  JsMap.get m A = Some ua -> username ua = "alice" ->
  JsMap.get m B = Some ub -> username ub = "bob" ->
  let ev := send_message (Some "bob") (Some "hi") in
  let out := emits (handle A ev) env m in
  received B out = [receive_message "alice" "hi" (clock env 0)] /\
  received A out = [message_sent "bob" "hi" (clock env 1)] /\
  (forall c, c <> A -> c <> B -> received c out = []) /\
  usersAfter (handle A ev) env m = m.
Proof.
  intros [Hok Hall] Hnames GA NA GB NB. cbv zeta.
  assert (AB : A <> B).
  { intros ->. rewrite GA in GB. injection GB as ->. rewrite NA in NB.
    discriminate NB. }
  pose proof (JsMapFacts.get_In _ _ _ GB) as IB.
  assert (SB : socketId ub = B).
  { rewrite Forall_forall in Hall. now destruct (Hall _ IB). }
  assert (F : findIn m (trim "bob") = Some ub).
  { change (trim "bob") with "bob". rewrite <- NB.
    now apply findIn_unique with (k := B). }
  unfold emits, usersAfter. cbn [handle].
  rewrite (run_send_delivered env m A ua ub "bob" "hi" GA) by (assumption || discriminate).
  rewrite SB, NA. change (trim "hi") with "hi". cbn [fst snd].
  unfold received. cbn.
  rewrite !String.eqb_refl.
  destruct (String.eqb_spec A B) as [|_]; [contradiction|].
  destruct (String.eqb_spec B A) as [E|_]; [symmetry in E; contradiction|].
  repeat split.
  intros c NcA NcB.
  destruct (String.eqb_spec B c) as [E|_]; [symmetry in E; contradiction|].
  destruct (String.eqb_spec A c) as [E|_]; [symmetry in E; contradiction|].
  reflexivity.
Qed.

Lemma text_message_end_to_end_witness :
  let out := emits (handle "A" (send_message (Some "bob") (Some "hi")))
                   Sample.env0 Sample.aliceAndBob in
  received "B" out = [receive_message "alice" "hi" 1000] /\
  received "A" out = [message_sent "bob" "hi" 1001] /\
  (forall c, c <> "A" -> c <> "B" -> received c out = []) /\
  usersAfter (handle "A" (send_message (Some "bob") (Some "hi")))
             Sample.env0 Sample.aliceAndBob = Sample.aliceAndBob.
Proof.
  apply (text_message_end_to_end Sample.env0 Sample.aliceAndBob "A" "B"
           Sample.alice Sample.bob).
  - apply reachable_ok, runAll_reachable, reach_start.
  - unfold uniqueNames. vm_compute.
    repeat constructor; simpl; intuition discriminate.
  - reflexivity.
  - reflexivity.
  - reflexivity.
  - reflexivity.
Defined.

(** C10: when a text message is delivered (the sender is registered,
    target and message are non-empty, the trimmed target resolves), the
    text carried by [receive_message] to the recipient and by
    [message_sent] to the sender is the trimmed message; these two are
    the only emits. *)
Theorem text_message_is_trimmed (env : Env) (m : JsMap.t User) (sid : string)
    (sender recipient : User) (target msg : string) :
  JsMap.get m sid = Some sender ->
  target <> EmptyString -> msg <> EmptyString ->
  findIn m (trim target) = Some recipient ->
  emits (handle sid (send_message (Some target) (Some msg))) env m =
    [(ToRoom (socketId recipient),
      receive_message (username sender) (trim msg) (clock env 0));
     (ToSocket sid, message_sent target (trim msg) (clock env 1))].
Proof.
  intros G Nt Nm F. unfold emits. cbn [handle].
  now rewrite (run_send_delivered env m sid sender recipient target msg).
Qed.

Lemma text_message_is_trimmed_witness :
  emits (handle "A" (send_message (Some " bob ") (Some "  hi there  ")))
        Sample.env0 Sample.aliceAndBob =
    [(ToRoom "B", receive_message "alice" "hi there" 1000);
     (ToSocket "A", message_sent " bob " "hi there" 1001)].
Proof.
  apply (text_message_is_trimmed Sample.env0 Sample.aliceAndBob "A"
           Sample.alice Sample.bob " bob " "  hi there  ").
  - reflexivity.
  - discriminate.
  - discriminate.
  - reflexivity.
Defined.

(** C6: a text message (target and text both non-empty) of a registered
    sender whose trimmed target resolves to no session is answered with
    the not-online error quoting the target, to the sender; that error
    is the only emit, no other socket receives anything, and the
    registry is unchanged. *)
Theorem offline_target_not_found (env : Env) (m : JsMap.t User) (sid : string)
    (sender : User) (target msg : string) :
  JsMap.get m sid = Some sender ->
  target <> EmptyString -> msg <> EmptyString ->
  findIn m (trim target) = None ->
  let ev := send_message (Some target) (Some msg) in
  run (handle sid ev) env m = (m, [(ToSocket sid, recipientNotFound target)]) /\
  received sid (emits (handle sid ev) env m) = [recipientNotFound target] /\
  reachesSenderOnly sid (emits (handle sid ev) env m).
Proof.
  intros G Nt Nm F. cbv zeta. unfold emits. cbn [handle].
  rewrite (run_send_offline env m sid sender target msg) by assumption.
  cbn [snd]. split; [reflexivity|]. split.
  - unfold received. cbn. now rewrite String.eqb_refl.
  - intros c N. now apply received_to_socket.
Qed.

Lemma offline_target_not_found_witness :
  let ev := send_message (Some "ghost") (Some "hi") in
  run (handle "A" ev) Sample.env0 Sample.aliceAndBob
    = (Sample.aliceAndBob, [(ToSocket "A", recipientNotFound "ghost")]) /\
  received "A" (emits (handle "A" ev) Sample.env0 Sample.aliceAndBob)
    = [recipientNotFound "ghost"] /\
  reachesSenderOnly "A" (emits (handle "A" ev) Sample.env0 Sample.aliceAndBob).
Proof.
  apply (offline_target_not_found Sample.env0 Sample.aliceAndBob "A"
           Sample.alice "ghost" "hi").
  - reflexivity.
  - discriminate.
  - discriminate.
  - reflexivity.
Defined.

(** The field check comes before the lookup: a text message with an
    empty text to the name ghost, which no session carries, is answered
    with the missing-field error. *)
Lemma empty_message_to_offline_target :
  JsMap.get Sample.aliceAndBob "A" = Some Sample.alice /\
  findIn Sample.aliceAndBob (trim "ghost") = None /\
  received "A" (emits (handle "A" (send_message (Some "ghost") (Some EmptyString)))
                      Sample.env0 Sample.aliceAndBob)
    = [missingField] /\
  received "A" (emits (handle "A" (send_message (Some "ghost") (Some EmptyString)))
                      Sample.env0 Sample.aliceAndBob)
    <> [recipientNotFound "ghost"].
Proof.
  repeat split. vm_compute. discriminate.
Qed.

(** Whatever its fields, a [send_message] of a registered sender whose
    trimmed target resolves to no session emits exactly one event, an
    error to the sender, reaches no other socket and leaves the registry
    as it is; the error is the not-online one naming the target when
    target and message are both non-empty, and the missing-field one
    otherwise. *)
Theorem offline_target_error_only (env : Env) (m : JsMap.t User) (sid : string)
    (sender : User) (target : string) (message : option string) :
  JsMap.get m sid = Some sender ->
  findIn m (trim target) = None ->
  run (handle sid (send_message (Some target) message)) env m =
    (m, [(ToSocket sid,
          if falsy (Some target) || falsy message then missingField
          else recipientNotFound target)]) /\
  reachesSenderOnly sid
    (emits (handle sid (send_message (Some target) message)) env m).
Proof.
  intros G F.
  assert (E : run (handle sid (send_message (Some target) message)) env m =
              (m, [(ToSocket sid,
                    if falsy (Some target) || falsy message then missingField
                    else recipientNotFound target)])).
  { cbn [handle].
    destruct (falsy (Some target) || falsy message) eqn:V.
    - now apply run_send_invalid with (sender := sender).
    - apply orb_false_iff in V as [Vt Vm].
      destruct message as [msg|]; [|discriminate Vm].
      simpl in Vt, Vm. apply String.eqb_neq in Vt, Vm.
      now apply run_send_offline with (sender := sender). }
  split; [exact E|].
  unfold emits. rewrite E. intros c N. now apply received_to_socket.
Qed.

Lemma offline_target_error_only_witness :
  run (handle "A" (send_message (Some "ghost") (Some "hi"))) Sample.env0
      Sample.aliceAndBob
    = (Sample.aliceAndBob, [(ToSocket "A", recipientNotFound "ghost")]).
Proof.
  apply (offline_target_error_only Sample.env0 Sample.aliceAndBob "A"
           Sample.alice "ghost" (Some "hi")); reflexivity.
Defined.

(** ** Legacy media *)

(** The three tiers of [legacyAddressee], one by one. *)
Lemma legacyAddressee_by_name m id u :
  findIn m id = Some u -> legacyAddressee m id = socketId u.
Proof. unfold legacyAddressee. now intros ->. Qed.

Lemma legacyAddressee_by_connection m id u :
  findIn m id = None -> JsMap.get m id = Some u ->
  legacyAddressee m id = socketId u.
Proof. unfold legacyAddressee. now intros -> ->. Qed.

Lemma legacyAddressee_raw m id :
  findIn m id = None -> JsMap.get m id = None -> legacyAddressee m id = id.
Proof. unfold legacyAddressee. now intros -> ->. Qed.

(** The first entry of a name, and the entry of a key. *)
Lemma findIn_first (pre post : JsMap.t User) (k : string) (u : User) (id : string) :
  (forall e, In e pre -> username (snd e) <> id) -> username u = id ->
  findIn (pre ++ (k, u) :: post) id = Some u.
Proof.
  intros Hpre E. induction pre as [|[k0 v0] r IH]; simpl.
  - apply String.eqb_eq in E. now rewrite E.
  - destruct (String.eqb_spec (username v0) id) as [E0|_].
    + exfalso. exact (Hpre (k0, v0) (or_introl eq_refl) E0).
    + apply IH. intros e I. apply Hpre. now right.
Qed.

Lemma get_first (pre post : JsMap.t User) (u : User) (id : string) :
  (forall e, In e pre -> fst e <> id) ->
  JsMap.get (pre ++ (id, u) :: post) id = Some u.
Proof.
  intros Hpre. induction pre as [|[k0 v0] r IH]; simpl.
  - now rewrite String.eqb_refl.
  - destruct (String.eqb_spec k0 id) as [E0|_].
    + exfalso. exact (Hpre (k0, v0) (or_introl eq_refl) E0).
    + apply IH. intros e I. apply Hpre. now right.
Qed.

Lemma get_no_key (m : JsMap.t User) (id : string) :
  (forall e, In e m -> fst e <> id) -> JsMap.get m id = None.
Proof.
  intros H. apply JsMapFacts.get_None_iff. intros I.
  apply in_map_iff in I as (e & E & I). exact (H e I E).
Qed.

(** C7: a legacy media event with field [id] leaves the registry as it
    is and emits exactly one event, a [get_image] with the buffer, and
    so no error.  Its addressee is found in three tiers, in this order:
    when some session is named [id], the [socketId] of the first such
    session in registration order; when no session is named [id] and
    the registry has an entry under connection id [id], the [socketId]
    of that entry; when neither exists, [id] itself, unchecked. *)
Theorem legacy_media_three_tiers (env : Env) (m : JsMap.t User) (sid : string)
    (buffer : Buffer) (id : string) :
  let out := emits (handle sid (image_upload buffer id)) env m in
  let named := fun e : string * User => username (snd e) = id in
  let keyed := fun e : string * User => fst e = id in
  usersAfter (handle sid (image_upload buffer id)) env m = m /\
  (exists room, out = [(ToRoom room, get_image buffer)]) /\
  existsb (fun e => isError (snd e)) out = false /\
  (forall pre k u post,
     m = pre ++ (k, u) :: post -> username u = id ->
     (forall e, In e pre -> ~ named e) ->
     out = [(ToRoom (socketId u), get_image buffer)]) /\
  (forall pre u post,
     (forall e, In e m -> ~ named e) ->
     m = pre ++ (id, u) :: post -> (forall e, In e pre -> ~ keyed e) ->
     out = [(ToRoom (socketId u), get_image buffer)]) /\
  ((forall e, In e m -> ~ named e) -> (forall e, In e m -> ~ keyed e) ->
   out = [(ToRoom id, get_image buffer)]).
Proof.
  cbv zeta. unfold emits, usersAfter. cbn [handle].
  rewrite run_image_upload. cbn [fst snd].
  split; [reflexivity|]. split; [eauto|]. split; [reflexivity|].
  split; [|split].
  - intros pre k u post -> E Hpre.
    now rewrite (legacyAddressee_by_name _ id u (findIn_first pre post k u id Hpre E)).
  - intros pre u post Hnone E Hpre.
    apply findIn_None in Hnone.
    rewrite (legacyAddressee_by_connection m id u); [reflexivity|assumption|].
    rewrite E. now apply get_first.
  - intros Hnone Hkey. apply findIn_None in Hnone.
    rewrite legacyAddressee_raw; [reflexivity|assumption|].
    now apply get_no_key.
Qed.

Lemma legacy_media_three_tiers_witness :
  emits (handle "X" (image_upload Sample.image "bob")) Sample.env0
        Sample.zedThenBob = [(ToRoom "B", get_image Sample.image)] /\
  emits (handle "X" (image_upload Sample.image "k1")) Sample.env0
        Sample.foreignRecord = [(ToRoom "s1", get_image Sample.image)] /\
  emits (handle "X" (image_upload Sample.image "nobody")) Sample.env0
        Sample.zedThenBob = [(ToRoom "nobody", get_image Sample.image)].
Proof.
  split; [|split].
  - destruct (legacy_media_three_tiers Sample.env0 Sample.zedThenBob "X"
                Sample.image "bob") as (_ & _ & _ & H & _).
    apply (H [("bob", mkUser "zed" "bob" 1000)] "B" (mkUser "bob" "B" 1000) []).
    + reflexivity.
    + reflexivity.
    + intros e [<-|[]]. discriminate.
  - destruct (legacy_media_three_tiers Sample.env0 Sample.foreignRecord "X"
                Sample.image "k1") as (_ & _ & _ & _ & H & _).
    apply (H [] (mkUser "zed" "s1" 0) []).
    + intros e [<-|[]]. discriminate.
    + reflexivity.
    + intros e [].
  - destruct (legacy_media_three_tiers Sample.env0 Sample.zedThenBob "X"
                Sample.image "nobody") as (_ & _ & _ & _ & _ & H).
    apply H.
    + intros e [<-|[<-|[]]]; discriminate.
    + intros e [<-|[<-|[]]]; discriminate.
Defined.

(** ** The sweep *)

(** C9: a sweep reads the clock once; it removes exactly the sessions
    that joined more than five minutes before that reading and whose
    socket the transport does not know or reports as not connected, and
    emits one presence broadcast per removed session and nothing else;
    every other session, past the threshold with a connected socket or
    not past the threshold, keeps its record and its place. *)
Theorem sweep_reaps_stale_dead (env : Env) (m : JsMap.t User) :
  JsMap.ok m ->
  let now := clock env 0 in
  let m' := usersAfter sweep env m in
  staleThreshold = 300000 /\
  m' = filter (fun e => negb (reaped env now e)) m /\
  emits sweep env m = sweepBroadcasts env now [] m /\
  length (emits sweep env m) = length (filter (reaped env now) m) /\
  forallb isPresenceBroadcast (emits sweep env m) = true /\
  (forall k u, In (k, u) m ->
     pastThreshold now u = true -> connectedNow env k = false ->
     JsMap.get m' k = None) /\
  (forall k u, In (k, u) m ->
     pastThreshold now u = true -> connectedNow env k = true ->
     JsMap.get m' k = Some u) /\
  (forall k u, In (k, u) m ->
     pastThreshold now u = false -> JsMap.get m' k = Some u).
Proof.
  intros Hok. cbv zeta. unfold usersAfter, emits.
  rewrite run_sweep by assumption. cbn [fst snd].
  split; [reflexivity|]. split; [reflexivity|]. split; [reflexivity|].
  split; [apply sweepBroadcasts_length|].
  split; [apply sweepBroadcasts_presence|].
  repeat split; intros k u I.
  - intros P C. apply get_filter_dropped with (u := u); [assumption..|].
    unfold reaped. cbn [fst snd]. now rewrite P, C.
  - intros P C. apply get_filter_kept; [assumption..|].
    unfold reaped. cbn [fst snd]. now rewrite P, C.
  - intros P. apply get_filter_kept; [assumption..|].
    unfold reaped. cbn [fst snd]. now rewrite P.
Qed.

Lemma sweep_reaps_stale_dead_witness :
  let env := Sample.envAt 400000 ["A"] in
  usersAfter sweep env Sample.aliceAndBob =
    filter (fun e => negb (reaped env 400000 e)) Sample.aliceAndBob /\
  length (emits sweep env Sample.aliceAndBob) =
    length (filter (reaped env 400000) Sample.aliceAndBob).
Proof.
  assert (Hok : JsMap.ok Sample.aliceAndBob).
  { apply reachable_ok, runAll_reachable, reach_start. }
  pose proof (sweep_reaps_stale_dead (Sample.envAt 400000 ["A"])
                Sample.aliceAndBob Hok) as (_ & H1 & _ & H2 & _).
  split; [exact H1|exact H2].
Defined.

(** * Further properties of the handlers *)

(** ** More facts on the map and on names *)

Section MoreFacts.
Import JsMapFacts.

Lemma In_set_strong (m : JsMap.t User) (k : string) (v : User) (e : string * User) :
  JsMap.ok m -> In e (JsMap.set m k v) -> e = (k, v) \/ (In e m /\ fst e <> k).
Proof.
  unfold JsMap.ok, JsMap.keys.
  induction m as [|[k0 v0] r IH]; simpl; intros Hok.
  - intros [H|[]]. now left.
  - inversion Hok as [|? ? Hnot Hnd]; subst.
    destruct (String.eqb_spec k0 k) as [->|N]; simpl.
    + intros [H|H]; [now left|]. right. split; [now right|].
      intros E. apply Hnot. rewrite <- E. now apply in_map.
    + intros [H|H].
      * right. subst e. split; [now left|exact N].
      * destruct (IH Hnd H) as [E|[I Nk]]; [now left|].
        right. split; [now right|assumption].
Qed.

Lemma In_delete_strong (m : JsMap.t User) (k : string) (e : string * User) :
  JsMap.ok m -> In e (JsMap.delete m k) -> In e m /\ fst e <> k.
Proof.
  unfold JsMap.ok, JsMap.keys.
  induction m as [|[k0 v0] r IH]; simpl; intros Hok; [tauto|].
  inversion Hok as [|? ? Hnot Hnd]; subst.
  destruct (String.eqb_spec k0 k) as [->|N]; simpl.
  - intros H. split; [now right|].
    intros E. apply Hnot. rewrite <- E. now apply in_map.
  - intros [H|H].
    + subst e. split; [now left|exact N].
    + destruct (IH Hnd H). split; [now right|assumption].
Qed.

Lemma keys_set_present (m : JsMap.t User) (k : string) (u v : User) :
  JsMap.get m k = Some u -> JsMap.keys (JsMap.set m k v) = JsMap.keys m.
Proof.
  intros G. apply keys_set_in.
  destruct (in_dec string_dec k (JsMap.keys m)) as [I|I]; [assumption|].
  apply get_None_iff in I. congruence.
Qed.

(** With unique names, two entries of the same name are one entry. *)
Lemma uniqueNames_same_entry (m : JsMap.t User) (e1 e2 : string * User) :
  uniqueNames m -> In e1 m -> In e2 m ->
  username (snd e1) = username (snd e2) -> e1 = e2.
Proof.
  unfold uniqueNames, JsMap.values. rewrite map_map.
  induction m as [|e r IH]; simpl; [tauto|].
  intros Hnd I1 I2 E. inversion Hnd as [|? ? Hnot Hnd']; subst.
  destruct I1 as [<-|I1], I2 as [<-|I2]; auto.
  - exfalso. apply Hnot. rewrite E.
    apply in_map_iff. now exists e2.
  - exfalso. apply Hnot. rewrite <- E.
    apply in_map_iff. now exists e1.
Qed.

Lemma uniqueNames_delete (m : JsMap.t User) (k : string) :
  uniqueNames m -> uniqueNames (JsMap.delete m k).
Proof.
  unfold uniqueNames, JsMap.values.
  induction m as [|[k0 v0] r IH]; simpl; intros Hnd; [constructor|].
  inversion Hnd as [|? ? Hnot Hnd']; subst.
  destruct (k0 =? k); simpl; [assumption|].
  constructor; [|auto].
  intros I. apply Hnot.
  apply in_map_iff in I as (u & Eu & I).
  apply in_map_iff in I as (e & <- & I).
  apply in_map_iff. exists (snd e). split; [assumption|].
  apply in_map. eapply In_delete; eassumption.
Qed.

Lemma uniqueNames_filter (f : string * User -> bool) (m : JsMap.t User) :
  uniqueNames m -> uniqueNames (filter f m).
Proof.
  unfold uniqueNames, JsMap.values.
  induction m as [|e r IH]; simpl; intros Hnd; [constructor|].
  inversion Hnd as [|? ? Hnot Hnd']; subst.
  destruct (f e); simpl; [|auto].
  constructor; [|auto].
  intros I. apply Hnot.
  apply in_map_iff in I as (u & Eu & I).
  apply in_map_iff in I as (e' & <- & I).
  apply filter_In in I as [I _].
  apply in_map_iff. exists (snd e'). split; [assumption|]. now apply in_map.
Qed.

(** A record stored under a name nobody carries is what the name
    resolves to afterwards. *)
Lemma findIn_set_fresh (m : JsMap.t User) (sid name : string) (now : Z) :
  findIn m name = None ->
  findIn (JsMap.set m sid (mkUser name sid now)) name = Some (mkUser name sid now).
Proof.
  induction m as [|[k v] r IH]; simpl; intros F.
  - now rewrite String.eqb_refl.
  - destruct (String.eqb_spec (username v) name) as [E|N]; [discriminate|].
    destruct (k =? sid); simpl.
    + now rewrite String.eqb_refl.
    + apply String.eqb_neq in N. rewrite N. auto.
Qed.

(** What a name resolves to is registered under its own socket id. *)
Lemma findIn_registered (m : JsMap.t User) (name : string) (u : User) :
  registryOk m -> findIn m name = Some u ->
  JsMap.get m (socketId u) = Some u /\ username u = name.
Proof.
  intros [Hok Hall] F. apply findIn_Some in F as [E [k I]].
  split; [|assumption].
  rewrite Forall_forall in Hall. destruct (Hall _ I) as [S _]. simpl in S.
  rewrite S. now apply In_get.
Qed.

(** The raw name of a join is looked up as it is; when the trimmed name
    is free in a registry of trimmed names, so is the raw one. *)
Lemma raw_free_when_trimmed_free (m : JsMap.t User) (raw : string) :
  registryOk m -> findIn m (trim raw) = None -> findIn m raw = None.
Proof.
  intros [_ Hall] F.
  destruct (string_dec raw (trim raw)) as [E|N].
  - now rewrite E.
  - now apply findIn_untrimmed.
Qed.

End MoreFacts.

Lemma sampleOk : registryOk Sample.aliceAndBob.
Proof. apply reachable_ok, runAll_reachable, reach_start. Qed.

Lemma sampleUnique : uniqueNames Sample.aliceAndBob.
Proof.
  unfold uniqueNames. vm_compute.
  repeat constructor; simpl; intuition discriminate.
Qed.

(** ** Joining *)

(** X1: an accepted join tells every other socket [user_joined] with the
    trimmed name and then the new snapshot; the joiner gets the snapshot
    and [join_success] but no [user_joined]; the snapshot is the registry
    after the join and holds the new record. *)
Theorem join_announcement (env : Env) (m : JsMap.t User) (sid raw c : string) :
  trim raw <> EmptyString -> findIn m raw = None -> c <> sid ->
  let out := emits (handle sid (user_join (Some raw))) env m in
  let snap := JsMap.values (usersAfter (handle sid (user_join (Some raw))) env m) in
  received c out = [user_joined (trim raw) sid; online_users snap] /\
  received sid out = [online_users snap; join_success (trim raw) snap] /\
  In (mkUser (trim raw) sid (clock env 0)) snap.
Proof.
  intros N F Nc. cbv zeta. unfold emits, usersAfter. cbn [handle].
  rewrite run_join_fresh by assumption. cbn [fst snd].
  unfold received. cbn. rewrite String.eqb_refl.
  destruct (String.eqb_spec sid c) as [E|_]; [symmetry in E; contradiction|].
  repeat split.
  change (mkUser (trim raw) sid (clock env 0))
    with (snd (sid, mkUser (trim raw) sid (clock env 0))).
  apply in_map. apply JsMapFacts.get_In, JsMapFacts.get_set_same.
Qed.

Lemma join_announcement_witness :
  received "B" (emits (handle "C" (user_join (Some " carol "))) Sample.env0
                      Sample.aliceAndBob)
    = [user_joined "carol" "C";
       online_users [Sample.alice; Sample.bob; mkUser "carol" "C" 1000]].
Proof.
  apply (join_announcement Sample.env0 Sample.aliceAndBob "C" " carol " "B").
  - vm_compute. discriminate.
  - reflexivity.
  - discriminate.
Defined.

(** X2: a join whose raw name is exactly the name of a registered
    session, the joiner's own included, is answered with 'Username is
    already taken' to the joiner alone and leaves the registry as it
    is. *)
Theorem join_name_in_use_refused (env : Env) (m : JsMap.t User) (sid k : string)
    (u : User) :
  registryOk m -> In (k, u) m ->
  run (handle sid (user_join (Some (username u)))) env m =
    (m, [(ToSocket sid, duplicateName)]) /\
  reachesSenderOnly sid (emits (handle sid (user_join (Some (username u)))) env m).
Proof.
  intros Hok I. unfold emits. cbn [handle].
  rewrite (join_exact_name_refused env m sid k u Hok I).
  split; [reflexivity|]. intros c N. now apply received_to_socket.
Qed.

Lemma join_name_in_use_refused_witness :
  run (handle "A" (user_join (Some "alice"))) Sample.env0 Sample.aliceAndBob =
    (Sample.aliceAndBob, [(ToSocket "A", duplicateName)]).
Proof.
  apply (join_name_in_use_refused Sample.env0 Sample.aliceAndBob "A" "A"
           Sample.alice sampleOk).
  vm_compute. now left.
Defined.

Lemma uniqueNames_callback (env : Env) (m : JsMap.t User) (cb : Callback) :
  registryOk m -> uniqueNames m -> sendsTrimmedName cb = true ->
  uniqueNames (usersAfter (callback cb) env m).
Proof.
  intros Hok Hu T. destruct cb as [sid ev|].
  - change (callback (OnEvent sid ev)) with (handle sid ev).
    destruct ev as [name|buffer targetUser mediaType filename|buffer id
                    |targetUser|targetUser|targetUser message| | |];
      try (rewrite users_after_reader by exact I; assumption).
    + unfold usersAfter. cbn [handle].
      destruct name as [raw|]; [|now rewrite run_join_absent].
      destruct (String.eqb_spec (trim raw) EmptyString) as [E|N];
        [now rewrite run_join_blank|].
      destruct (findIn m raw) as [v|] eqn:F;
        [now rewrite (run_join_taken env m sid raw v)|].
      rewrite run_join_fresh by assumption. cbn [fst].
      simpl in T. apply String.eqb_eq in T.
      apply set_fresh_name_unique; [assumption|]. now rewrite <- T.
    + unfold usersAfter. cbn [handle].
      destruct (JsMap.get m sid) as [v|] eqn:G.
      * rewrite (run_disconnect_joined env m sid v G). cbn [fst].
        now apply uniqueNames_delete.
      * now rewrite run_disconnect_unjoined.
  - unfold usersAfter. change (callback OnTimer) with sweep.
    rewrite run_sweep by apply Hok. cbn [fst]. now apply uniqueNames_filter.
Qed.

(** X3: as long as every [user_join] carries a name without surrounding
    white space, display names stay unique through any run of events
    and sweeps from the empty registry. *)
Theorem trimmed_joins_keep_names_unique (cbs : list (Env * Callback)) :
  forallb (fun p => sendsTrimmedName (snd p)) cbs = true ->
  uniqueNames (runAll cbs JsMap.empty).
Proof.
  assert (G : forall m, reachable m -> uniqueNames m ->
                forallb (fun p => sendsTrimmedName (snd p)) cbs = true ->
                uniqueNames (runAll cbs m)).
  { induction cbs as [|[env cb] rest IH]; intros m R U T; simpl; [assumption|].
    simpl in T. apply andb_true_iff in T as [T1 T2].
    apply IH; [now constructor| |assumption].
    apply uniqueNames_callback; auto using reachable_ok. }
  apply G; [constructor|constructor].
Qed.

Lemma trimmed_joins_keep_names_unique_witness :
  uniqueNames
    (runAll [(Sample.env0, OnEvent "A" (user_join (Some "alice")));
             (Sample.env0, OnEvent "B" (user_join (Some "bob")));
             (Sample.env0, OnEvent "A" (user_join (Some "carol")));
             (Sample.env0, OnEvent "C" (user_join (Some "alice")));
             (Sample.envAt 400000 ["B"], OnTimer)] JsMap.empty).
Proof.
  apply trimmed_joins_keep_names_unique. reflexivity.
Defined.

(** X4: in every registry the server can reach, connection ids are
    unique keys, membership and lookup by connection agree, every record
    carries its own key as [socketId] and a non-empty trimmed name, and
    whatever a name resolves to is the record registered under that
    record's connection id. *)
Theorem reachable_registry_invariant (m : JsMap.t User) :
  reachable m ->
  NoDup (JsMap.keys m) /\
  (forall k u, In (k, u) m <-> JsMap.get m k = Some u) /\
  (forall k u, JsMap.get m k = Some u ->
     socketId u = k /\ username u <> EmptyString /\ trim (username u) = username u) /\
  (forall name u, findIn m name = Some u ->
     JsMap.get m (socketId u) = Some u /\ username u = name).
Proof.
  intros R. pose proof (reachable_ok m R) as Hok.
  destruct Hok as [Hkeys Hall]. split; [exact Hkeys|]. split; [|split].
  - intros k u. split.
    + now apply JsMapFacts.In_get.
    + apply JsMapFacts.get_In.
  - intros k u G. apply JsMapFacts.get_In in G.
    rewrite Forall_forall in Hall. destruct (Hall _ G) as (S & T & N).
    now repeat split.
  - intros name u F. apply findIn_registered; [now split|assumption].
Qed.

Lemma reachable_registry_invariant_witness :
  NoDup (JsMap.keys Sample.aliceAndBob).
Proof.
  apply (reachable_registry_invariant Sample.aliceAndBob).
  apply runAll_reachable, reach_start.
Defined.

(** ** Leaving *)

Lemma length_delete (m : JsMap.t User) (k : string) (u : User) :
  JsMap.get m k = Some u -> S (length (JsMap.delete m k)) = length m.
Proof.
  induction m as [|[k0 v0] r IH]; simpl; [discriminate|].
  destruct (k0 =? k); simpl; [reflexivity|]. intros G. now rewrite IH.
Qed.

(** X5: after the disconnect of a registered socket, in a registry of
    unique names, the socket resolves to no session, its name resolves
    to no session, and a join of any socket under that name is
    accepted. *)
Theorem disconnect_frees_name (env env2 : Env) (m : JsMap.t User)
    (sid sid2 : string) (u : User) :
  registryOk m -> uniqueNames m -> JsMap.get m sid = Some u ->
  let m1 := usersAfter (handle sid disconnect) env m in
  JsMap.get m1 sid = None /\
  findIn m1 (username u) = None /\
  JsMap.get (usersAfter (handle sid2 (user_join (Some (username u)))) env2 m1) sid2
    = Some (mkUser (username u) sid2 (clock env2 0)).
Proof.
  intros [Hok Hall] Hu G. cbv zeta. unfold usersAfter. cbn [handle].
  rewrite (run_disconnect_joined env m sid u G). cbn [fst].
  pose proof (JsMapFacts.get_In _ _ _ G) as I.
  assert (F : findIn (JsMap.delete m sid) (username u) = None).
  { apply findIn_None. intros e Ie E.
    apply In_delete_strong in Ie as [Ie Ne]; [|assumption].
    assert (e = (sid, u)) by (apply (uniqueNames_same_entry m); assumption).
    subst e. now apply Ne. }
  split; [now apply JsMapFacts.get_delete_same|]. split; [exact F|].
  rewrite Forall_forall in Hall. destruct (Hall _ I) as (_ & T & N).
  simpl in T, N.
  rewrite run_join_fresh by (rewrite ?T; assumption).
  cbn [fst]. rewrite T. apply JsMapFacts.get_set_same.
Qed.

Lemma disconnect_frees_name_witness :
  let m1 := usersAfter (handle "A" disconnect) Sample.env0 Sample.aliceAndBob in
  JsMap.get m1 "A" = None /\
  findIn m1 "alice" = None /\
  JsMap.get (usersAfter (handle "B" (user_join (Some "alice")))
                        (Sample.envAt 5000 []) m1) "B"
    = Some (mkUser "alice" "B" 5000).
Proof.
  apply (disconnect_frees_name Sample.env0 (Sample.envAt 5000 [])
           Sample.aliceAndBob "A" "B" Sample.alice sampleOk sampleUnique).
  reflexivity.
Defined.

(** X6: the disconnect of a socket that never joined emits nothing and
    changes nothing.  The disconnect of a registered socket removes its
    entry and no other: every other socket receives [user_left] with the
    departed name and connection id, then a snapshot that is the
    registry without the departed record, one entry shorter. *)
Theorem disconnect_effects (env : Env) (m : JsMap.t User) (sid c : string) :
  registryOk m -> c <> sid ->
  match JsMap.get m sid with
  | None => run (handle sid disconnect) env m = (m, [])
  | Some u =>
      let m' := usersAfter (handle sid disconnect) env m in
      received c (emits (handle sid disconnect) env m) =
        [user_left (username u) sid; online_users (JsMap.values m')] /\
      ~ In u (JsMap.values m') /\
      S (JsMap.size m') = JsMap.size m /\
      JsMap.get m' c = JsMap.get m c
  end.
Proof.
  intros [Hok Hall] N. destruct (JsMap.get m sid) as [u|] eqn:G.
  - cbv zeta. unfold emits, usersAfter. cbn [handle].
    rewrite (run_disconnect_joined env m sid u G). cbn [fst snd].
    split; [|split; [|split]].
    + unfold received. cbn.
      destruct (String.eqb_spec sid c) as [E|_]; [symmetry in E; contradiction|].
      reflexivity.
    + intros I. apply in_map_iff in I as ([k v] & E & I). simpl in E. subst v.
      apply In_delete_strong in I as [I Nk]; [|assumption].
      rewrite Forall_forall in Hall.
      destruct (Hall _ I) as [S1 _].
      destruct (Hall _ (JsMapFacts.get_In _ _ _ G)) as [S2 _].
      simpl in *. congruence.
    + unfold JsMap.size. now apply length_delete with (u := u).
    + apply JsMapFacts.get_delete_other. congruence.
  - cbn [handle]. now apply run_disconnect_unjoined.
Qed.

Lemma disconnect_effects_witness :
  received "B" (emits (handle "A" disconnect) Sample.env0 Sample.aliceAndBob) =
    [user_left "alice" "A"; online_users [Sample.bob]].
Proof.
  apply (disconnect_effects Sample.env0 Sample.aliceAndBob "A" "B" sampleOk).
  discriminate.
Defined.

(** ** Media transfers *)

Lemma empty_or_blank (raw : string) :
  (raw =? EmptyString) || (trim raw =? EmptyString) = (trim raw =? EmptyString).
Proof. exact (falsy_trim raw). Qed.

Section MediaEquations.
Variables (env : Env) (m : JsMap.t User) (sid : string) (sender : User).
Variables (buffer : Buffer) (mediaType filename : string).
Hypothesis Hsender : JsMap.get m sid = Some sender.

Lemma run_media_no_target :
  run (on_media_upload sid buffer None mediaType filename) env m =
    (m, [(ToSocket sid, targetRequired)]).
Proof. exec. now rewrite Hsender. Qed.

Lemma run_media_blank_target (target : string) :
  trim target = EmptyString ->
  run (on_media_upload sid buffer (Some target) mediaType filename) env m =
    (m, [(ToSocket sid, targetRequired)]).
Proof.
  intros E. unfold on_media_upload, run, bind, readUsers. cbn.
  rewrite Hsender, empty_or_blank, E. reflexivity.
Qed.

Lemma run_media_offline (target : string) :
  trim target <> EmptyString -> findIn m (trim target) = None ->
  run (on_media_upload sid buffer (Some target) mediaType filename) env m =
    (m, [(ToSocket sid, recipientNotFound target)]).
Proof.
  intros N F. unfold on_media_upload, run, bind, readUsers. cbn.
  rewrite Hsender, empty_or_blank. apply String.eqb_neq in N. rewrite N.
  exec. now rewrite F.
Qed.

Lemma run_media_delivered (target : string) (t : User) :
  trim target <> EmptyString -> findIn m (trim target) = Some t ->
  run (on_media_upload sid buffer (Some target) mediaType filename) env m =
    (m, [(ToRoom (socketId t),
          get_media buffer mediaType filename (username sender) (clock env 0));
         (ToSocket sid, media_sent target filename mediaType (length buffer))]).
Proof.
  intros N F. unfold on_media_upload, run, bind, readUsers. cbn.
  rewrite Hsender, empty_or_blank. apply String.eqb_neq in N. rewrite N.
  exec. now rewrite F.
Qed.

End MediaEquations.

(** X7: a media transfer of a registered sender whose trimmed target is
    non-empty and resolves delivers [get_media] with the buffer, media
    type and file name as sent and the sender's registered name to the
    recipient's connection, and confirms to the sender with the target
    as typed and the byte count of the buffer; nobody else receives
    anything and the registry is unchanged. *)
Theorem media_transfer_delivered (env : Env) (m : JsMap.t User) (sid : string)
    (sender recipient : User) (buffer : Buffer)
    (target mediaType filename : string) :
  JsMap.get m sid = Some sender ->
  trim target <> EmptyString ->
  findIn m (trim target) = Some recipient ->
  run (handle sid (media_upload buffer (Some target) mediaType filename)) env m =
    (m, [(ToRoom (socketId recipient),
          get_media buffer mediaType filename (username sender) (clock env 0));
         (ToSocket sid, media_sent target filename mediaType (length buffer))]).
Proof.
  intros G N F. cbn [handle]. now apply run_media_delivered.
Qed.

Lemma media_transfer_delivered_witness :
  run (handle "A" (media_upload Sample.image (Some " bob ") "image/png" "cat.png"))
      Sample.env0 Sample.aliceAndBob =
    (Sample.aliceAndBob,
     [(ToRoom "B", get_media Sample.image "image/png" "cat.png" "alice" 1000);
      (ToSocket "A", media_sent " bob " "cat.png" "image/png" 4)]).
Proof.
  apply (media_transfer_delivered Sample.env0 Sample.aliceAndBob "A"
           Sample.alice Sample.bob Sample.image " bob " "image/png" "cat.png").
  - reflexivity.
  - vm_compute. discriminate.
  - reflexivity.
Defined.

(** X8: a media transfer of a registered sender that cannot be delivered
    emits exactly one error, to the sender, and leaves the registry as
    it is: 'Target user is required' when the target is absent, empty or
    all white space, and the not-online error quoting the target as
    typed when its trimmed form resolves to no session. *)
Theorem media_transfer_rejections (env : Env) (m : JsMap.t User) (sid : string)
    (sender : User) (buffer : Buffer) (targetUser : option string)
    (mediaType filename : string) :
  JsMap.get m sid = Some sender ->
  match targetUser with
  | Some target => findIn m (trim target) = None
  | None => True
  end ->
  run (handle sid (media_upload buffer targetUser mediaType filename)) env m =
    (m, [(ToSocket sid,
          match targetUser with
          | Some target =>
              if trim target =? EmptyString then targetRequired
              else recipientNotFound target
          | None => targetRequired
          end)]) /\
  reachesSenderOnly sid
    (emits (handle sid (media_upload buffer targetUser mediaType filename)) env m).
Proof.
  intros G F.
  assert (E : exists o,
             run (handle sid (media_upload buffer targetUser mediaType filename)) env m
               = (m, [(ToSocket sid, o)]) /\
             o = match targetUser with
                 | Some target =>
                     if trim target =? EmptyString then targetRequired
                     else recipientNotFound target
                 | None => targetRequired
                 end).
  { cbn [handle]. destruct targetUser as [target|].
    - destruct (String.eqb_spec (trim target) EmptyString) as [Eb|Nb].
      + eexists. split; [now apply run_media_blank_target with (sender := sender)|reflexivity].
      + eexists. split; [now apply run_media_offline with (sender := sender)|reflexivity].
    - eexists. split; [now apply run_media_no_target with (sender := sender)|reflexivity]. }
  destruct E as (o & E & ->). split; [exact E|].
  unfold emits. rewrite E. intros c N. now apply received_to_socket.
Qed.

Lemma media_transfer_rejections_witness :
  run (handle "A" (media_upload Sample.image (Some "ghost") "image/png" "cat.png"))
      Sample.env0 Sample.aliceAndBob =
    (Sample.aliceAndBob, [(ToSocket "A", recipientNotFound "ghost")]).
Proof.
  apply (media_transfer_rejections Sample.env0 Sample.aliceAndBob "A"
           Sample.alice Sample.image (Some "ghost") "image/png" "cat.png");
    reflexivity.
Defined.

Lemma findIn_empty_name (m : JsMap.t User) :
  registryOk m -> findIn m EmptyString = None.
Proof.
  intros [_ Hall]. apply findIn_None. intros e I.
  rewrite Forall_forall in Hall. now destruct (Hall e I) as (_ & _ & N).
Qed.

(** X9: a non-empty target made of white space only is treated
    differently by the two handlers: the media transfer answers 'Target
    user is required', the text message passes the field check and
    answers that the user, quoted as typed, is not online. *)
Theorem blank_target_answers (env : Env) (m : JsMap.t User) (sid : string)
    (sender : User) (buffer : Buffer) (target msg mediaType filename : string) :
  registryOk m -> JsMap.get m sid = Some sender ->
  target <> EmptyString -> trim target = EmptyString -> msg <> EmptyString ->
  emits (handle sid (media_upload buffer (Some target) mediaType filename)) env m
    = [(ToSocket sid, targetRequired)] /\
  emits (handle sid (send_message (Some target) (Some msg))) env m
    = [(ToSocket sid, recipientNotFound target)].
Proof.
  intros Hok G Nt Et Nm. unfold emits. cbn [handle]. split.
  - now rewrite (run_media_blank_target env m sid sender).
  - rewrite (run_send_offline env m sid sender); try assumption; [reflexivity|].
    rewrite Et. now apply findIn_empty_name.
Qed.

Lemma blank_target_answers_witness :
  emits (handle "A" (media_upload Sample.image (Some "  ") "image/png" "cat.png"))
        Sample.env0 Sample.aliceAndBob
    = [(ToSocket "A", targetRequired)] /\
  emits (handle "A" (send_message (Some "  ") (Some "hi"))) Sample.env0
        Sample.aliceAndBob
    = [(ToSocket "A", recipientNotFound "  ")].
Proof.
  apply (blank_target_answers Sample.env0 Sample.aliceAndBob "A" Sample.alice
           Sample.image "  " "hi" "image/png" "cat.png" sampleOk).
  - reflexivity.
  - discriminate.
  - reflexivity.
  - discriminate.
Defined.

(** ** Typing signals *)

Lemma run_typing_joined env m sid sender (flag : bool) (target : string) :
  registryOk m -> JsMap.get m sid = Some sender ->
  run (on_typing flag sid (Some target)) env m =
    (m, match findIn m target with
        | Some t => [(ToRoom (socketId t), user_typing (username sender) flag)]
        | None => []
        end).
Proof.
  intros Hok G. exec. rewrite G. cbn.
  destruct (String.eqb_spec target EmptyString) as [->|N].
  - now rewrite findIn_empty_name.
  - cbn. destruct (findIn m target); reflexivity.
Qed.

(** X10: a typing signal of a registered sender is forwarded, with the
    sender's registered name and the flag of the event ([true] for
    start, [false] for stop), to the connection of the session whose
    name is exactly the target as typed, and to nobody else; when the
    target resolves to nothing, nothing at all is emitted.  The registry
    is unchanged either way. *)
Theorem typing_signal_outcome (env : Env) (m : JsMap.t User) (sid : string)
    (sender : User) (target : string) :
  registryOk m -> JsMap.get m sid = Some sender ->
  let forwarded flag :=
    match findIn m target with
    | Some t => [(ToRoom (socketId t), user_typing (username sender) flag)]
    | None => []
    end in
  run (handle sid (typing_start (Some target))) env m = (m, forwarded true) /\
  run (handle sid (typing_stop (Some target))) env m = (m, forwarded false) /\
  run (handle sid (typing_start None)) env m = (m, []).
Proof.
  intros Hok G. cbv zeta. cbn [handle].
  split; [now apply run_typing_joined|]. split; [now apply run_typing_joined|].
  exec. now rewrite G.
Qed.

Lemma typing_signal_outcome_witness :
  run (handle "A" (typing_start (Some "bob"))) Sample.env0 Sample.aliceAndBob =
    (Sample.aliceAndBob, [(ToRoom "B", user_typing "alice" true)]).
Proof.
  apply (typing_signal_outcome Sample.env0 Sample.aliceAndBob "A" Sample.alice
           "bob" sampleOk).
  reflexivity.
Defined.

(** X11: the typing handlers look the target up as typed, the text
    handler trims it first.  For a target that carries surrounding white
    space around a registered name, the typing signal is dropped
    silently while a text message to the same target is delivered. *)
Theorem typing_target_not_trimmed (env : Env) (m : JsMap.t User) (sid : string)
    (sender recipient : User) (target msg : string) :
  registryOk m -> JsMap.get m sid = Some sender ->
  target <> trim target -> findIn m (trim target) = Some recipient ->
  msg <> EmptyString ->
  emits (handle sid (typing_start (Some target))) env m = [] /\
  emits (handle sid (typing_stop (Some target))) env m = [] /\
  received (socketId recipient)
           (emits (handle sid (send_message (Some target) (Some msg))) env m)
    <> [].
Proof.
  intros Hok G Nt F Nm.
  assert (Fraw : findIn m target = None) by (apply findIn_untrimmed; [apply Hok|assumption]).
  assert (Ne : target <> EmptyString) by (intros ->; now apply Nt).
  unfold emits. cbn [handle].
  rewrite !(run_typing_joined env m sid sender) by assumption.
  rewrite Fraw. split; [reflexivity|]. split; [reflexivity|].
  rewrite (run_send_delivered env m sid sender recipient) by assumption.
  unfold received. cbn. rewrite String.eqb_refl. discriminate.
Qed.

Lemma typing_target_not_trimmed_witness :
  emits (handle "A" (typing_start (Some " bob"))) Sample.env0 Sample.aliceAndBob
    = [] /\
  emits (handle "A" (typing_stop (Some " bob"))) Sample.env0 Sample.aliceAndBob
    = [] /\
  received "B" (emits (handle "A" (send_message (Some " bob") (Some "hi")))
                      Sample.env0 Sample.aliceAndBob) <> [].
Proof.
  apply (typing_target_not_trimmed Sample.env0 Sample.aliceAndBob "A"
           Sample.alice Sample.bob " bob" "hi" sampleOk).
  - reflexivity.
  - vm_compute. discriminate.
  - reflexivity.
  - discriminate.
Defined.

(** ** What no handler does *)

(** Case analysis down to the list of emits, with the branch conditions
    kept as equations. *)
Ltac emits_cases :=
  unfold emits; exec;
  repeat (cbn;
          match goal with
          | |- context [match ?x with _ => _ end] => destruct x eqn:?
          end);
  cbn.

(** X12: whatever event a socket sends, every [error] it causes is
    addressed to that socket itself, never to a room or to all. *)
Theorem errors_reach_sender_only (env : Env) (m : JsMap.t User) (sid : string)
    (ev : Inbound) (t : Target) (msg : string) :
  In (t, error msg) (emits (handle sid ev) env m) -> t = ToSocket sid.
Proof.
  destruct ev; emits_cases; intuition congruence.
Qed.

Lemma errors_reach_sender_only_witness :
  ToSocket "X" = ToSocket "X".
Proof.
  apply (errors_reach_sender_only Sample.env0 Sample.aliceAndBob "X"
           (send_message (Some "bob") (Some "hi")) (ToSocket "X")
           "Please join with a username first").
  vm_compute. now left.
Defined.

(** X13: apart from the legacy media path, every room a handler emits to
    is the connection id of a registered session: media, text and typing
    payloads are never addressed to an unregistered id. *)
Theorem routed_rooms_are_registered (env : Env) (m : JsMap.t User) (sid : string)
    (ev : Inbound) (room : string) (o : Outbound) :
  registryOk m -> isLegacy ev = false ->
  In (ToRoom room, o) (emits (handle sid ev) env m) ->
  exists u, JsMap.get m room = Some u /\ socketId u = room.
Proof.
  intros Hok L. destruct ev; try discriminate L; clear L; emits_cases;
    intros H; repeat (destruct H as [H|H]; try discriminate H); try contradiction;
    injection H as <- _;
    match goal with
    | F : findIn m _ = Some ?t |- _ =>
        exists t; split; [exact (proj1 (findIn_registered m _ t Hok F))|reflexivity]
    end.
Qed.

Lemma routed_rooms_are_registered_witness :
  exists u, JsMap.get Sample.aliceAndBob "B" = Some u /\ socketId u = "B".
Proof.
  apply (routed_rooms_are_registered Sample.env0 Sample.aliceAndBob "A"
           (send_message (Some "bob") (Some "hi")) "B"
           (receive_message "alice" "hi" 1000) sampleOk).
  - reflexivity.
  - vm_compute. now left.
Defined.

(** X14: the sender name shown to a recipient in [get_media],
    [receive_message] and [user_typing] is always the registered name of
    the socket that sent the event; the payload cannot choose it. *)
Theorem sender_name_authentic (env : Env) (m : JsMap.t User) (sid : string)
    (ev : Inbound) (t : Target) (o : Outbound) (name : string) :
  In (t, o) (emits (handle sid ev) env m) -> shownSender o = Some name ->
  exists u, JsMap.get m sid = Some u /\ username u = name.
Proof.
  destruct ev; emits_cases;
    intros H S; repeat (destruct H as [H|H]); try contradiction;
    injection H as <- <-; try discriminate S;
    injection S as <-; eauto.
Qed.

Lemma sender_name_authentic_witness :
  exists u, JsMap.get Sample.aliceAndBob "A" = Some u /\ username u = "alice".
Proof.
  apply (sender_name_authentic Sample.env0 Sample.aliceAndBob "A"
           (typing_stop (Some "bob")) (ToRoom "B") (user_typing "alice" false)).
  - vm_compute. now left.
  - reflexivity.
Defined.

Lemma readers_leave_registry_aux (env : Env) (m : JsMap.t User) (sid : string)
    (ev : Inbound) :
  writesRegistry ev = false ->
  usersAfter (handle sid ev) env m = m /\
  lastSnapshot (emits (handle sid ev) env m) = None.
Proof.
  intros W. split.
  - apply users_after_reader. destruct ev; try discriminate W; exact I.
  - destruct ev; try discriminate W; emits_cases; reflexivity.
Qed.

(** X15: events other than [user_join] and [disconnect] never change
    the registry and never cause a presence snapshot. *)
Theorem readers_leave_registry (env : Env) (m : JsMap.t User) (sid : string)
    (ev : Inbound) :
  writesRegistry ev = false ->
  usersAfter (handle sid ev) env m = m /\
  lastSnapshot (emits (handle sid ev) env m) = None.
Proof. apply readers_leave_registry_aux. Qed.

Lemma readers_leave_registry_witness :
  usersAfter (handle "A" (get_user_info true)) Sample.env0 Sample.aliceAndBob
    = Sample.aliceAndBob /\
  lastSnapshot (emits (handle "A" (get_user_info true)) Sample.env0 Sample.aliceAndBob)
    = None.
Proof.
  apply (readers_leave_registry Sample.env0 Sample.aliceAndBob "A" (get_user_info true)).
  reflexivity.
Defined.

(** ** Presence broadcasts follow the registry *)

Lemma sweepBroadcasts_last (env : Env) (now : Z) (todo kept : JsMap.t User) :
  let stays := fun e => negb (reaped env now e) in
  lastSnapshot (sweepBroadcasts env now kept todo)
    = Some (JsMap.values (kept ++ filter stays todo)) \/
  (filter stays todo = todo /\ sweepBroadcasts env now kept todo = []).
Proof.
  cbv zeta. revert kept.
  induction todo as [|e rest IH]; intros kept; [now right|].
  cbn [sweepBroadcasts filter].
  destruct (reaped env now e) eqn:R; cbn [negb].
  - left. cbn [lastSnapshot].
    destruct (IH kept) as [E|[E1 E2]].
    + now rewrite E.
    + rewrite E2, E1. reflexivity.
  - destruct (IH (kept ++ [e])) as [E|[E1 E2]].
    + left. rewrite E. now rewrite <- app_assoc.
    + right. split; [now rewrite E1|assumption].
Qed.

(** X16: every callback that changes the registry ends its presence
    broadcasts with the registry it leaves: after any event or sweep,
    either the registry is as before and no snapshot was sent, or the
    last [online_users] sent to all sockets lists exactly the sessions
    now registered, in registration order. *)
Theorem registry_change_broadcast (env : Env) (m : JsMap.t User) (cb : Callback) :
  JsMap.ok m ->
  let m' := usersAfter (callback cb) env m in
  let out := emits (callback cb) env m in
  (m' = m /\ lastSnapshot out = None) \/
  lastSnapshot out = Some (JsMap.values m').
Proof.
  intros Hok. cbv zeta. destruct cb as [sid ev|].
  - change (callback (OnEvent sid ev)) with (handle sid ev).
    destruct (writesRegistry ev) eqn:W.
    + destruct ev as [name|buffer targetUser mediaType filename|buffer id
                      |targetUser|targetUser|targetUser message| | |];
        try discriminate W; unfold usersAfter, emits; cbn [handle].
      * destruct name as [raw|]; [|left; now rewrite run_join_absent].
        destruct (String.eqb_spec (trim raw) EmptyString) as [E|N];
          [left; now rewrite run_join_blank|].
        destruct (findIn m raw) as [v|] eqn:F;
          [left; now rewrite (run_join_taken env m sid raw v)|].
        right. now rewrite run_join_fresh.
      * destruct (JsMap.get m sid) as [v|] eqn:G.
        -- right. now rewrite (run_disconnect_joined env m sid v G).
        -- left. now rewrite run_disconnect_unjoined.
    + left. now apply readers_leave_registry_aux.
  - change (callback OnTimer) with sweep. unfold usersAfter, emits.
    rewrite run_sweep by assumption. cbn [fst snd].
    destruct (sweepBroadcasts_last env (clock env 0) m []) as [E|[E1 E2]].
    + now right.
    + left. now rewrite E1, E2.
Qed.

Lemma registry_change_broadcast_witness :
  lastSnapshot (emits (callback OnTimer) (Sample.envAt 400000 ["A"])
                      Sample.aliceAndBob)
    = Some (JsMap.values (usersAfter (callback OnTimer)
                                     (Sample.envAt 400000 ["A"])
                                     Sample.aliceAndBob)).
Proof.
  destruct (registry_change_broadcast (Sample.envAt 400000 ["A"])
              Sample.aliceAndBob OnTimer (proj1 sampleOk)) as [[E _]|E].
  - vm_compute in E. discriminate E.
  - exact E.
Defined.

(** ** Joining and leaving compose *)

(** X17: a socket that was not registered, joins and then disconnects
    leaves the registry exactly as it found it. *)
Theorem join_then_disconnect_restores (env env2 : Env) (m : JsMap.t User)
    (sid raw : string) :
  JsMap.get m sid = None -> trim raw <> EmptyString -> findIn m raw = None ->
  usersAfter (handle sid disconnect) env2
             (usersAfter (handle sid (user_join (Some raw))) env m) = m.
Proof.
  intros G N F. unfold usersAfter at 2. cbn [handle].
  rewrite run_join_fresh by assumption. cbn [fst].
  unfold usersAfter.
  rewrite (run_disconnect_joined env2 _ sid (mkUser (trim raw) sid (clock env 0)))
    by apply JsMapFacts.get_set_same.
  cbn [fst]. apply JsMapFacts.get_None_iff in G.
  rewrite JsMapFacts.keys_set_fresh by assumption.
  rewrite <- (app_nil_r m) at 2.
  apply JsMapFacts.delete_app_fresh. assumption.
Qed.

Lemma join_then_disconnect_restores_witness :
  usersAfter (handle "C" disconnect) Sample.env0
             (usersAfter (handle "C" (user_join (Some "carol"))) Sample.env0
                         Sample.aliceAndBob)
    = Sample.aliceAndBob.
Proof.
  apply (join_then_disconnect_restores Sample.env0 Sample.env0
           Sample.aliceAndBob "C" "carol").
  - reflexivity.
  - vm_compute. discriminate.
  - reflexivity.
Defined.

(** X18: once a join is accepted under a name whose trimmed form nobody
    carried, a text message of any registered sender addressed to that
    name, with or without surrounding white space, is delivered to the
    joiner's connection. *)
Theorem joined_name_is_routable (env env2 : Env) (m : JsMap.t User)
    (sid raw s target msg : string) (sender : User) :
  registryOk m -> trim raw <> EmptyString -> findIn m (trim raw) = None ->
  let m' := usersAfter (handle sid (user_join (Some raw))) env m in
  JsMap.get m' s = Some sender ->
  trim target = trim raw -> msg <> EmptyString ->
  JsMap.get m' sid = Some (mkUser (trim raw) sid (clock env 0)) /\
  findIn m' (trim raw) = Some (mkUser (trim raw) sid (clock env 0)) /\
  emits (handle s (send_message (Some target) (Some msg))) env2 m' =
    [(ToRoom sid, receive_message (username sender) (trim msg) (clock env2 0));
     (ToSocket s, message_sent target (trim msg) (clock env2 1))].
Proof.
  intros Hok N F. cbv zeta. unfold usersAfter. cbn [handle].
  rewrite run_join_fresh by (auto using raw_free_when_trimmed_free).
  cbn [fst]. intros Gs Et Nm.
  pose proof (findIn_set_fresh m sid (trim raw) (clock env 0) F) as F'.
  split; [apply JsMapFacts.get_set_same|]. split; [exact F'|].
  assert (Nt : target <> EmptyString).
  { intros ->. apply N. rewrite <- Et. reflexivity. }
  unfold emits. cbn [handle].
  rewrite (run_send_delivered env2 _ s sender (mkUser (trim raw) sid (clock env 0)));
    try assumption; [reflexivity|].
  now rewrite Et.
Qed.

Lemma joined_name_is_routable_witness :
  emits (handle "A" (send_message (Some "carol ") (Some "welcome")))
        Sample.env0
        (usersAfter (handle "C" (user_join (Some " carol"))) Sample.env0
                    Sample.aliceAndBob)
    = [(ToRoom "C", receive_message "alice" "welcome" 1000);
       (ToSocket "A", message_sent "carol " "welcome" 1001)].
Proof.
  apply (joined_name_is_routable Sample.env0 Sample.env0 Sample.aliceAndBob
           "C" " carol" "A" "carol " "welcome" Sample.alice sampleOk).
  - vm_compute. discriminate.
  - reflexivity.
  - reflexivity.
  - reflexivity.
  - discriminate.
Defined.

(** X19: an accepted [user_join] on a socket that is already registered
    renames its session in place: the connection ids of the registry and
    their order are unchanged, and, with unique names, the old name
    resolves to no session afterwards unless it is the new one. *)
Theorem rejoin_keeps_place (env : Env) (m : JsMap.t User) (sid raw : string)
    (u : User) :
  JsMap.ok m -> uniqueNames m -> JsMap.get m sid = Some u ->
  trim raw <> EmptyString -> findIn m raw = None ->
  username u <> trim raw ->
  let m' := usersAfter (handle sid (user_join (Some raw))) env m in
  JsMap.keys m' = JsMap.keys m /\
  JsMap.size m' = JsMap.size m /\
  findIn m' (username u) = None.
Proof.
  intros Hok Hu G N F Nu. cbv zeta. unfold usersAfter. cbn [handle].
  rewrite run_join_fresh by assumption. cbn [fst].
  pose proof (keys_set_present m sid u (mkUser (trim raw) sid (clock env 0)) G) as K.
  split; [exact K|]. split.
  - unfold JsMap.size. rewrite <- (length_map fst).
    change (map fst (JsMap.set m sid (mkUser (trim raw) sid (clock env 0))))
      with (JsMap.keys (JsMap.set m sid (mkUser (trim raw) sid (clock env 0)))).
    rewrite K. unfold JsMap.keys. apply length_map.
  - apply findIn_None. intros e I E.
    destruct (In_set_strong m sid _ e Hok I) as [->|[I' Ne]].
    + simpl in E. now apply Nu.
    + assert (e = (sid, u)).
      { apply (uniqueNames_same_entry m); try assumption.
        now apply JsMapFacts.get_In. }
      subst e. now apply Ne.
Qed.

Lemma rejoin_keeps_place_witness :
  let m' := usersAfter (handle "A" (user_join (Some "carol"))) Sample.env0
                       Sample.aliceAndBob in
  JsMap.keys m' = JsMap.keys Sample.aliceAndBob /\
  JsMap.size m' = JsMap.size Sample.aliceAndBob /\
  findIn m' "alice" = None.
Proof.
  apply (rejoin_keeps_place Sample.env0 Sample.aliceAndBob "A" "carol"
           Sample.alice (proj1 sampleOk) sampleUnique).
  - reflexivity.
  - vm_compute. discriminate.
  - reflexivity.
  - vm_compute. discriminate.
Defined.

(** ** Legacy media on a reachable registry *)

(** X20: on a registry that keeps its invariant the second and third
    tier of the legacy path address the same room: the payload goes to
    the connection of the session named [id] if there is one, and to the
    room [id] itself otherwise, so that no socket other than the one
    whose connection id is [id] can receive it then. *)
Theorem legacy_tiers_on_reachable (env : Env) (m : JsMap.t User) (sid : string)
    (buffer : Buffer) (id : string) :
  registryOk m ->
  let out := emits (handle sid (image_upload buffer id)) env m in
  out = [(ToRoom (match findIn m id with
                  | Some u => socketId u
                  | None => id
                  end), get_image buffer)] /\
  (findIn m id = None -> forall c, c <> id -> received c out = []).
Proof.
  intros [Hok Hall]. cbv zeta. unfold emits. cbn [handle].
  rewrite run_image_upload. cbn [snd].
  assert (E : legacyAddressee m id =
              match findIn m id with Some u => socketId u | None => id end).
  { unfold legacyAddressee. destruct (findIn m id); [reflexivity|].
    destruct (JsMap.get m id) as [u|] eqn:G; [|reflexivity].
    apply JsMapFacts.get_In in G. rewrite Forall_forall in Hall.
    now destruct (Hall _ G). }
  rewrite E. split; [reflexivity|].
  intros F c N. rewrite F. unfold received. cbn.
  destruct (String.eqb_spec id c) as [Ec|_]; [symmetry in Ec; contradiction|].
  reflexivity.
Qed.

Lemma legacy_tiers_on_reachable_witness :
  emits (handle "X" (image_upload Sample.image "B")) Sample.env0
        Sample.aliceAndBob
    = [(ToRoom "B", get_image Sample.image)].
Proof.
  apply (legacy_tiers_on_reachable Sample.env0 Sample.aliceAndBob "X"
           Sample.image "B" sampleOk).
Defined.

(** ** Sweeps that find nothing to reap *)

Lemma sweepBroadcasts_none (env : Env) (now : Z) (todo kept : JsMap.t User) :
  (forall e, In e todo -> reaped env now e = false) ->
  filter (fun e => negb (reaped env now e)) todo = todo /\
  sweepBroadcasts env now kept todo = [].
Proof.
  revert kept. induction todo as [|e rest IH]; intros kept H; [now split|].
  cbn [sweepBroadcasts filter]. rewrite (H e (or_introl eq_refl)). cbn [negb].
  destruct (IH (kept ++ [e]) (fun e' I => H e' (or_intror I))) as [E1 E2].
  now rewrite E1, E2.
Qed.

(** X21: a sweep changes nothing and broadcasts nothing when every
    session either joined at most 300000 ms before the clock reading of
    the sweep, the bound included, or has a connected socket; the age of
    a session alone never removes it. *)
Theorem sweep_without_stale_is_silent (env : Env) (m : JsMap.t User) :
  JsMap.ok m ->
  (forall k u, In (k, u) m ->
     clock env 0 - joinTime u <= 300000 \/ sockets env k = Some true) ->
  run sweep env m = (m, []).
Proof.
  intros Hok H. rewrite run_sweep by assumption.
  destruct (sweepBroadcasts_none env (clock env 0) m []) as [E1 E2].
  - intros [k u] I. unfold reaped, pastThreshold, connectedNow, staleThreshold.
    cbn [fst snd]. destruct (H k u I) as [A|C].
    + destruct (Z.gtb_spec (clock env 0 - joinTime u) (5 * 60 * 1000));
        [lia|reflexivity].
    + rewrite C. apply andb_false_r.
  - now rewrite E1, E2.
Qed.

Lemma sweep_without_stale_is_silent_witness :
  run sweep (Sample.envAt 301000 ["A"; "B"]) Sample.aliceAndBob
    = (Sample.aliceAndBob, []).
Proof.
  apply (sweep_without_stale_is_silent (Sample.envAt 301000 ["A"; "B"])
           Sample.aliceAndBob (proj1 sampleOk)).
  intros k u I. left. vm_compute in I.
  destruct I as [I|[I|[]]]; injection I as <- <-; vm_compute; discriminate.
Defined.

(** ** The user listing *)

Section Listing.

Lemma substring_0_length (n : nat) (s : string) :
  String.length (substring 0 n s) = Nat.min n (String.length s).
Proof.
  revert s. induction n as [|n IH]; intros [|c s]; simpl; auto.
Qed.

Lemma substring_0_prefix (n : nat) (s : string) :
  prefix (substring 0 n s) s = true.
Proof.
  revert s. induction n as [|n IH]; intros [|c s]; simpl; auto.
  destruct (ascii_dec c c); [apply IH|congruence].
Qed.

End Listing.

(** X22: the listing of [GET /api/users] has one object per registered
    session, in registration order, with the name and the join time of
    the session; of the connection id it shows a prefix of at most eight
    code units, all of it when the id is no longer than eight, followed
    by three dots. *)
Theorem api_users_listing (m : JsMap.t User) :
  length (apiUsers m) = JsMap.size m /\
  map username (apiUsers m) = map username (JsMap.values m) /\
  map joinTime (apiUsers m) = map joinTime (JsMap.values m) /\
  Forall2 (fun shown user =>
             exists p, socketId shown = (p ++ "...")%string /\
                       prefix p (socketId user) = true /\
                       String.length p = Nat.min 8 (String.length (socketId user)))
          (apiUsers m) (JsMap.values m).
Proof.
  unfold apiUsers, JsMap.size, JsMap.values.
  repeat split.
  - now rewrite !length_map.
  - rewrite map_map. reflexivity.
  - rewrite map_map. reflexivity.
  - induction m as [|[k u] r IH]; simpl; constructor; [|exact IH].
    exists (substring 0 8 (socketId u)). repeat split.
    + apply substring_0_prefix.
    + apply substring_0_length.
Qed.
